(** * Flowlib's flow model ([flowlib/model.py]): a shallow embedding

    The module builds the in-memory model of a NiFi flow out of parsed YAML
    records: [FlowElement.from_dict] is the polymorphic factory, the [id] and
    [parent_id] properties guard the identities, and [Flow] offers two lookup
    helpers.  Parsed records are Python values; exceptions are results;
    the in-place updates of the caller's record are threaded as state. *)

From stdpp Require Import gmap strings list fin_maps.
From Stdlib Require Import ZArith Ascii.

Set Warnings "-register-all".
Open Scope string_scope.

(** ** Exceptions and results *)

(** The exception classes the module can end in.  [FlowLibException] is the
    module's own; the others are Python's built-in ones, raised by the
    interpreter on a failed attribute, key, index or call. *)
Inductive exn : Set :=
| FlowLibException
| AttributeError
| TypeError
| KeyError
| IndexError
| ValueError.

Inductive result (A : Type) : Type :=
| Ok (a : A)
| Raise (e : exn).
Arguments Ok {A} a.
Arguments Raise {A} e.

#[global] Instance result_ret : MRet result := fun _ a => Ok a.
#[global] Instance result_bind : MBind result :=
  fun _ _ f m => match m with Ok a => f a | Raise e => Raise e end.

(** ** Python values *)

(** What a YAML or JSON parser hands over: scalars, lists and mappings with
    string keys. *)
Inductive pyval : Type :=
| PNone
| PBool (b : bool)
| PInt (z : Z)
| PStr (s : string)
| PList (l : list pyval)
| PDict (d : gmap string pyval).

(** Truth value testing ([if x], [not x]). *)
Definition truthy (v : pyval) : bool :=
  match v with
  | PNone => false
  | PBool b => b
  | PInt z => negb (Z.eqb z 0)
  | PStr s => negb (String.eqb s "")
  | PList l => match l with [] => false | _ :: _ => true end
  | PDict d => negb (Nat.eqb (size d) 0)
  end.

(** [d.get(k)]: the value, or [None]. *)
Definition dict_get (d : gmap string pyval) (k : string) : pyval :=
  default PNone (d !! k).

(** [v == s] for a string literal [s]. *)
Definition is_str (s : string) (v : pyval) : bool :=
  match v with
  | PStr s' => String.eqb s' s
  | _ => false
  end.

(** [len(v)] *)
Definition py_len (v : pyval) : result nat :=
  match v with
  | PStr s => Ok (String.length s)
  | PList l => Ok (length l)
  | PDict d => Ok (size d)
  | _ => Raise TypeError
  end.

Fixpoint prefix_b (p s : string) : bool :=
  match p, s with
  | EmptyString, _ => true
  | String a p', String b s' => Ascii.eqb a b && prefix_b p' s'
  | String _ _, EmptyString => false
  end.

(** [sub in s] on strings: substring test. *)
Fixpoint str_in (sub s : string) : bool :=
  prefix_b sub s ||
  match s with
  | EmptyString => false
  | String _ s' => str_in sub s'
  end.

(** [k in v] for a string [k]: substring of a string, element of a list,
    key of a mapping; the other values are not containers. *)
Definition py_in (k : string) (v : pyval) : result bool :=
  match v with
  | PStr s => Ok (str_in k s)
  | PList l => Ok (existsb (is_str k) l)
  | PDict d => Ok (bool_decide (is_Some (d !! k)))
  | _ => Raise TypeError
  end.

(** [s.split(sep)] past the check of [sep]: [skip] counts the characters of a
    separator just matched that are still to be dropped. *)
Fixpoint str_split_go (sep : string) (skip : nat) (s : string) : list string :=
  match s with
  | EmptyString => [EmptyString]
  | String c s' =>
      match skip with
      | S k => str_split_go sep k s'
      | O =>
          if prefix_b sep s
          then EmptyString :: str_split_go sep (String.length sep - 1) s'
          else match str_split_go sep 0 s' with
               | w :: ws => String c w :: ws
               | [] => [String c EmptyString]
               end
      end
  end.

Definition str_split (sep s : string) : result (list string) :=
  if String.eqb sep "" then Raise ValueError else Ok (str_split_go sep 0 s).

(** [v.split(sep)]: only strings have the method. *)
Definition py_split (v : pyval) (sep : string) : result (list string) :=
  match v with
  | PStr s => str_split sep s
  | _ => Raise AttributeError
  end.

(** ** Module constants *)

Definition PG_NAME_DELIMETER : string := "/".

(** The names bound in the body of [class Flow].  The class has no base but
    [object], whose attributes all have dunder names: a plain name that is
    not bound here is looked up in vain. *)
Definition Flow_class_namespace : list string :=
  ["__init__"; "__repr__"; "find_controller_by_name"; "get_parent_element"].

(** [Flow.<attr>] on the class object. *)
Definition Flow_class_getattr (attr : string) : result unit :=
  if bool_decide (attr ∈ Flow_class_namespace) then Ok () else Raise AttributeError.

(** ** The DTO base classes

    [ProcessorConfigDTO], [ControllerServiceDTO] and [ReportingTaskDTO] come
    from nipyapi.  Their constructors are taken as parameters: given the
    keyword arguments, each either returns ([None]) or raises. *)
Record External : Type := {
  ProcessorConfigDTO_init : gmap string pyval -> option exn;
  ControllerServiceDTO_init : gmap string pyval -> option exn;
  ReportingTaskDTO_init : gmap string pyval -> option exn
}.

(** [ProcessorConfig], [ControllerServiceConfig], [ReportingTaskConfig]: the
    DTO built from the keyword arguments, plus [package_id]. *)
Record ElementConfig : Type := {
  package_id : pyval;
  dto_kwargs : gmap string pyval
}.

(** [XConfig(package_id, **kwargs)]: [self] is the one keyword that cannot
    land in [**kwargs]. *)
Definition ElementConfig_init (dto_init : gmap string pyval -> option exn)
    (pkg : pyval) (kwargs : gmap string pyval) : result ElementConfig :=
  if bool_decide (is_Some (kwargs !! "self")) then Raise TypeError
  else match dto_init kwargs with
       | Some e => Raise e
       | None => Ok {| package_id := pkg; dto_kwargs := kwargs |}
       end.

(** The three lines shared by [Processor], [Controller] and [ReportingTask]:
<<
    if not 'properties' in config:
        config['properties'] = dict()
    self.config = XConfig(config.pop('package_id'), **config)
>>
    [config] is the caller's object and is updated in place: the first
    component is its state when the lines are left. *)
Definition config_from (dto_init : gmap string pyval -> option exn)
    (config : pyval) : pyval * result ElementConfig :=
  match py_in "properties" config with
  | Raise e => (config, Raise e)
  | Ok has =>
      match config with
      | PDict c =>
          let c1 := if has then c else <["properties" := PDict ∅]> c in
          match c1 !! "package_id" with
          | None => (PDict c1, Raise KeyError)
          | Some pkg =>
              let c2 := delete "package_id" c1 in
              (PDict c2, ElementConfig_init dto_init pkg c2)
          end
      | PStr _ => (config, Raise (if has then AttributeError else TypeError))
      | _ => (config, Raise TypeError)
      end
  end.

(** ** Connection *)

Module Connection.

Record t : Type := mk {
  name : pyval;
  from_port : pyval;
  to_port : pyval;
  relationships : pyval
}.

Definition params : gset string :=
  list_to_set ["name"; "from_port"; "to_port"; "relationships"].

(** [Connection( **c )] *)
Definition call (c : pyval) : result t :=
  match c with
  | PDict kw =>
      if bool_decide (dom kw ⊆ params) then
        match kw !! "name" with
        | Some n =>
            Ok (mk n (dict_get kw "from_port") (dict_get kw "to_port")
                  (dict_get kw "relationships"))
        | None => Raise TypeError
        end
      else Raise TypeError
  | _ => Raise TypeError
  end.

End Connection.

(** [[Connection( **c ) for c in connections] if connections else None]: a
    truthy value that is not a list iterates over strings or not at all. *)
Definition make_connections (connections : pyval) : result (option (list Connection.t)) :=
  if truthy connections then
    match connections with
    | PList cs => conns ← mapM Connection.call cs; Ok (Some conns)
    | _ => Raise TypeError
    end
  else Ok None.

(** ** FlowElement and its four variants *)

Module FlowElement.

(** The attributes every variant's [__init__] sets. *)
Record Common : Type := mkCommon {
  _id : pyval;
  _parent_id : pyval;
  name : pyval;
  parent_path : pyval;
  _type : pyval
}.

(** An instance of one of the four subclasses.  A process group owns its
    [elements] map, empty at construction. *)
Inductive t : Type :=
| ProcessGroup (c : Common) (component_ref controllers vars : pyval)
    (connections : option (list Connection.t)) (elements : gmap string t)
| Processor (c : Common) (config : ElementConfig)
    (connections : option (list Connection.t))
| InputPort (c : Common) (connections : option (list Connection.t))
| OutputPort (c : Common) (connections : option (list Connection.t)).

Inductive variant : Set := VProcessGroup | VProcessor | VInputPort | VOutputPort.

Definition variant_of (e : t) : variant :=
  match e with
  | ProcessGroup _ _ _ _ _ _ => VProcessGroup
  | Processor _ _ _ => VProcessor
  | InputPort _ _ => VInputPort
  | OutputPort _ _ => VOutputPort
  end.

Definition common (e : t) : Common :=
  match e with
  | ProcessGroup c _ _ _ _ _ => c
  | Processor c _ _ => c
  | InputPort c _ => c
  | OutputPort c _ => c
  end.

Definition with_common (f : Common -> Common) (e : t) : t :=
  match e with
  | ProcessGroup c r k v n m => ProcessGroup (f c) r k v n m
  | Processor c g n => Processor (f c) g n
  | InputPort c n => InputPort (f c) n
  | OutputPort c n => OutputPort (f c) n
  end.

Definition connections (e : t) : option (list Connection.t) :=
  match e with
  | ProcessGroup _ _ _ _ n _ => n
  | Processor _ _ n => n
  | InputPort _ n => n
  | OutputPort _ n => n
  end.

(** What [__init__] leaves in the common attributes. *)
Definition fresh (name parent_path _type : pyval) : Common :=
  mkCommon PNone PNone name parent_path _type.

(** *** The constructors, called with positional arguments *)

Definition ProcessGroup_init (name parent_path _type component_ref controllers
    _vars connections : pyval) : result t :=
  conns ← make_connections connections;
  Ok (ProcessGroup (fresh name parent_path _type) component_ref controllers
        _vars conns ∅).

(** [config] is updated in place; the first component is its state when
    the constructor is left. *)
Definition Processor_init (ext : External) (name parent_path _type config
    connections : pyval) : pyval * result t :=
  let '(config', rc) := config_from (ProcessorConfigDTO_init ext) config in
  (config',
   cfg ← rc;
   conns ← make_connections connections;
   Ok (Processor (fresh name parent_path _type) cfg conns)).

Definition InputPort_init (name parent_path _type connections : pyval) : result t :=
  conns ← make_connections connections;
  Ok (InputPort (fresh name parent_path _type) conns).

Definition OutputPort_init (name parent_path _type connections : pyval) : result t :=
  conns ← make_connections connections;
  Ok (OutputPort (fresh name parent_path _type) conns).

(** *** The constructors, called as [Variant( **elem_dict )]

    Binding the keywords fails with [TypeError] on a keyword that names no
    parameter and on a parameter without default that no keyword gives. *)

Definition ProcessGroup_params : gset string :=
  list_to_set ["name"; "parent_path"; "_type"; "component_ref"; "controllers";
               "_vars"; "connections"].

Definition Processor_params : gset string :=
  list_to_set ["name"; "parent_path"; "_type"; "config"; "connections"].

Definition Port_params : gset string :=
  list_to_set ["name"; "parent_path"; "_type"; "connections"].

(* [controllers=dict()] is evaluated once, with the [def]: the groups built
   without the keyword all hold that one mapping, empty as long as nothing
   has been written through one of them.  The statements below read the
   [controllers] of a group only when its record gave one. *)
Definition ProcessGroup_call (kw : gmap string pyval) : result t :=
  if bool_decide (dom kw ⊆ ProcessGroup_params) then
    match kw !! "name", kw !! "parent_path", kw !! "_type", kw !! "component_ref" with
    | Some n, Some p, Some ty, Some r =>
        ProcessGroup_init n p ty r (default (PDict ∅) (kw !! "controllers"))
          (dict_get kw "_vars") (dict_get kw "connections")
    | _, _, _, _ => Raise TypeError
    end
  else Raise TypeError.

(** The [config] keyword is the very object the record holds under
    ["config"]: what the constructor does to it shows in the record. *)
Definition Processor_call (ext : External) (kw : gmap string pyval)
    : gmap string pyval * result t :=
  if bool_decide (dom kw ⊆ Processor_params) then
    match kw !! "name", kw !! "parent_path", kw !! "_type", kw !! "config" with
    | Some n, Some p, Some ty, Some cfg =>
        let '(cfg', r) := Processor_init ext n p ty cfg (dict_get kw "connections") in
        (<["config" := cfg']> kw, r)
    | _, _, _, _ => (kw, Raise TypeError)
    end
  else (kw, Raise TypeError).

Definition InputPort_call (kw : gmap string pyval) : result t :=
  if bool_decide (dom kw ⊆ Port_params) then
    match kw !! "name", kw !! "parent_path", kw !! "_type" with
    | Some n, Some p, Some ty => InputPort_init n p ty (dict_get kw "connections")
    | _, _, _ => Raise TypeError
    end
  else Raise TypeError.

Definition OutputPort_call (kw : gmap string pyval) : result t :=
  if bool_decide (dom kw ⊆ Port_params) then
    match kw !! "name", kw !! "parent_path", kw !! "_type" with
    | Some n, Some p, Some ty => OutputPort_init n p ty (dict_get kw "connections")
    | _, _, _ => Raise TypeError
    end
  else Raise TypeError.

(** *** The factory *)

(** [not name or len(name) < 1] *)
Definition name_is_empty (name : pyval) : result bool :=
  if negb (truthy name) then Ok true
  else n ← py_len name; Ok (n <? 1)%nat.

(** [FlowElement.from_dict(elem_dict)].  The first component is the state of
    the caller's [elem_dict] when the call is left, by return or by raise. *)
Definition from_dict (ext : External) (elem_dict : pyval) : pyval * result t :=
  match elem_dict with
  | PDict d =>
      if negb (truthy (dict_get d "type")) then (elem_dict, Raise FlowLibException)
      else
        let name := dict_get d "name" in
        match name_is_empty name with
        | Raise e => (elem_dict, Raise e)
        | Ok true => (elem_dict, Raise FlowLibException)
        | Ok false =>
            match py_in PG_NAME_DELIMETER name with
            | Raise e => (elem_dict, Raise e)
            | Ok true =>
                (* the message's arguments are evaluated before the raise *)
                (elem_dict,
                 _ ← Flow_class_getattr "PG_DELIMETER"; Raise FlowLibException)
            | Ok false =>
                let d1 := <["_type" := dict_get d "type"]> (delete "type" d) in
                if is_str "process_group" (dict_get d1 "_type") then
                  let d2 :=
                    if truthy (dict_get d1 "vars")
                    then <["_vars" := dict_get d1 "vars"]> (delete "vars" d1)
                    else d1 in
                  (PDict d2, ProcessGroup_call d2)
                else if is_str "processor" (dict_get d1 "_type") then
                  let '(d2, r) := Processor_call ext d1 in (PDict d2, r)
                else if is_str "input_port" (dict_get d1 "_type") then
                  (PDict d1, InputPort_call d1)
                else if is_str "output_port" (dict_get d1 "_type") then
                  (PDict d1, OutputPort_call d1)
                else (PDict d1, Raise FlowLibException)
            end
        end
  | _ => (elem_dict, Raise FlowLibException)
  end.

(** *** The properties *)

Definition id (e : t) : pyval := _id (common e).

Definition set_id (e : t) (v : pyval) : result t :=
  if truthy (_id (common e)) then Raise FlowLibException
  else Ok (with_common
             (fun c => mkCommon v (_parent_id c) (name c) (parent_path c) (_type c)) e).

Definition parent_id (e : t) : pyval := _parent_id (common e).

Definition set_parent_id (e : t) (v : pyval) : result t :=
  if truthy (_parent_id (common e)) then Raise FlowLibException
  else Ok (with_common
             (fun c => mkCommon (_id c) v (name c) (parent_path c) (_type c)) e).

Definition type (e : t) : pyval := _type (common e).

End FlowElement.

(** ** Controller *)

Module Controller.

Record t : Type := mk {
  _id : pyval;
  _parent_id : pyval;
  name : pyval;
  config : ElementConfig
}.

(** [Controller(name, config)]; [config] is updated in place. *)
Definition init (ext : External) (name config : pyval) : pyval * result t :=
  let '(config', rc) := config_from (ControllerServiceDTO_init ext) config in
  (config', cfg ← rc; Ok (mk PNone PNone name cfg)).

Definition id (c : t) : pyval := _id c.

Definition set_id (c : t) (v : pyval) : result t :=
  if truthy (_id c) then Raise FlowLibException
  else Ok (mk v (_parent_id c) (name c) (config c)).

Definition parent_id (c : t) : pyval := _parent_id c.

Definition set_parent_id (c : t) (v : pyval) : result t :=
  if truthy (_parent_id c) then Raise FlowLibException
  else Ok (mk (_id c) v (name c) (config c)).

End Controller.

(** ** ReportingTask *)

Module ReportingTask.

(** The class sets [_id], [name] and [config] and defines the [id] property
    only.  [attrs] holds what else has been assigned on the instance: with
    no property or slot in the way, an assignment to any other name is an
    entry of the instance's own dictionary. *)
Record t : Type := mk {
  _id : pyval;
  name : pyval;
  config : ElementConfig;
  attrs : gmap string pyval
}.

Definition init (ext : External) (name config : pyval) : pyval * result t :=
  let '(config', rc) := config_from (ReportingTaskDTO_init ext) config in
  (config', cfg ← rc; Ok (mk PNone name cfg ∅)).

Definition id (r : t) : pyval := _id r.

Definition set_id (r : t) (v : pyval) : result t :=
  if truthy (_id r) then Raise FlowLibException
  else Ok (mk v (name r) (config r) (attrs r)).

(** [r.parent_id]: a plain attribute, there once it has been assigned. *)
Definition parent_id (r : t) : result pyval :=
  match attrs r !! "parent_id" with
  | Some v => Ok v
  | None => Raise AttributeError
  end.

(** [r.parent_id = v]: a plain attribute assignment. *)
Definition set_parent_id (r : t) (v : pyval) : result t :=
  Ok (mk (_id r) (name r) (config r) (<["parent_id" := v]> (attrs r))).

End ReportingTask.

(** ** FlowComponent *)

Module FlowComponent.

Record t : Type := mk {
  component_name : pyval;
  source_file : pyval;
  defaults : pyval;
  required_controllers : pyval;
  required_vars : pyval;
  process_group : FlowElement.t;
  raw : pyval
}.

End FlowComponent.

(** ** Flow *)

Module Flow.

(** [controllers] and [canvas] start as [None].  The lookup below iterates
    over [controllers] and reads [c.name] from each item, which a sequence
    of [Controller] objects supports: once loaded, [controllers] is that
    sequence, in iteration order. *)
Record t : Type := mk {
  name : pyval;
  flowlib_version : pyval;
  version : pyval;
  controllers : option (list Controller.t);
  canvas : option (list FlowElement.t);
  component_dir : pyval;
  comments : pyval;
  globals : pyval;
  raw : pyval;
  loaded_components : gmap string FlowComponent.t;
  elements : gmap string FlowElement.t
}.

(** [Flow()] *)
Definition init : t :=
  mk PNone PNone PNone None None PNone PNone PNone PNone ∅ ∅.

(** [list(filter(lambda c: c.name == name, self.controllers))[0]] *)
Definition find_controller_by_name (self : t) (name : string) : result Controller.t :=
  match controllers self with
  | None => Raise TypeError
  | Some cs =>
      match List.filter (fun c => is_str name (Controller.name c)) cs with
      | c :: _ => Ok c
      | [] => Raise IndexError
      end
  end.

(** What the loop variable [target] of [get_parent_element] can hold: the
    flow itself, an element found in an [elements] map, or [None]. *)
Inductive target : Type :=
| TFlow (f : t)
| TElem (e : FlowElement.t)
| TNone.

(** [target.elements]: a flow and a process group have the attribute. *)
Definition target_elements (tg : target) : result (gmap string FlowElement.t) :=
  match tg with
  | TFlow f => Ok (elements f)
  | TElem (FlowElement.ProcessGroup _ _ _ _ _ els) => Ok els
  | TElem _ => Raise AttributeError
  | TNone => Raise AttributeError
  end.

(** [elements.get(n)] *)
Definition elements_get (els : gmap string FlowElement.t) (n : string) : target :=
  match els !! n with
  | Some e => TElem e
  | None => TNone
  end.

(** The loop [for n in names: elements = target.elements; target = elements.get(n)]. *)
Fixpoint descend (tg : target) (names : list string) : result target :=
  match names with
  | [] => Ok tg
  | n :: rest =>
      els ← target_elements tg;
      descend (elements_get els n) rest
  end.

Definition get_parent_element (self : t) (element : FlowElement.t) : result target :=
  names ← py_split (FlowElement.parent_path (FlowElement.common element)) PG_NAME_DELIMETER;
  descend (TFlow self) (tail names).

End Flow.

(** ** Records as the factory sees them *)

(** The caller's record once [elem_dict['_type'] = elem_dict.pop('type')]
    has run. *)
Definition renamed (d : gmap string pyval) : gmap string pyval :=
  <["_type" := dict_get d "type"]> (delete "type" d).

(** The variant a discriminator selects. *)
Definition variant_of_tag (ty : pyval) : option FlowElement.variant :=
  if is_str "process_group" ty then Some FlowElement.VProcessGroup
  else if is_str "processor" ty then Some FlowElement.VProcessor
  else if is_str "input_port" ty then Some FlowElement.VInputPort
  else if is_str "output_port" ty then Some FlowElement.VOutputPort
  else None.

(** The record gets past the three checks that open [from_dict]. *)
Definition passes_validation (elem_dict : pyval) : bool :=
  match elem_dict with
  | PDict d =>
      truthy (dict_get d "type") &&
      match FlowElement.name_is_empty (dict_get d "name"), py_in PG_NAME_DELIMETER (dict_get d "name") with
      | Ok false, Ok false => true
      | _, _ => false
      end
  | _ => false
  end.

(** The fields a variant cannot be built without, besides [type] and [name]. *)
Definition required_of (v : FlowElement.variant) : list string :=
  match v with
  | FlowElement.VProcessGroup => ["parent_path"; "component_ref"]
  | FlowElement.VProcessor => ["parent_path"; "config"]
  | _ => ["parent_path"]
  end.

(** A record with a recognized discriminator, a non-empty name without the
    delimiter, and the fields its variant requires. *)
Definition has_required_fields (d : gmap string pyval) : bool :=
  match variant_of_tag (dict_get d "type") with
  | None => false
  | Some v =>
      match dict_get d "name" with
      | PStr s => negb (String.eqb s "") && negb (str_in PG_NAME_DELIMETER s)
      | _ => false
      end
      && forallb (fun k => bool_decide (is_Some (d !! k))) (required_of v)
  end.

(** The fields a record of the variant may carry: those the constructor has
    a parameter for, under the names the record uses. *)
Definition fields_of (v : FlowElement.variant) : gset string :=
  match v with
  | FlowElement.VProcessGroup =>
      list_to_set ["type"; "name"; "parent_path"; "component_ref"; "controllers";
                   "vars"; "connections"]
  | FlowElement.VProcessor =>
      list_to_set ["type"; "name"; "parent_path"; "config"; "connections"]
  | _ => list_to_set ["type"; "name"; "parent_path"; "connections"]
  end.

Definition connection_record_ok (c : pyval) : bool :=
  match c with
  | PDict kw => bool_decide (dom kw ⊆ Connection.params) && bool_decide (is_Some (kw !! "name"))
  | _ => false
  end.

(** No connections, or a list of connection records. *)
Definition connections_ok (v : pyval) : bool :=
  negb (truthy v) ||
  match v with
  | PList cs => forallb connection_record_ok cs
  | _ => false
  end.

(** A mapping with a [package_id], no [self] key, and keywords the DTO
    constructor takes. *)
Definition config_ok (dto_init : gmap string pyval -> option exn) (cfg : pyval) : bool :=
  match cfg with
  | PDict c =>
      bool_decide (is_Some (c !! "package_id"))
      && negb (bool_decide (is_Some (c !! "self")))
      && match dto_init (delete "package_id"
                           (if bool_decide (is_Some (c !! "properties")) then c
                            else <["properties" := PDict ∅]> c)) with
         | None => true
         | Some _ => false
         end
  | _ => false
  end.

(** A record the selected constructor can bind and build from. *)
Definition valid_record (ext : External) (d : gmap string pyval) : bool :=
  has_required_fields d &&
  match variant_of_tag (dict_get d "type") with
  | None => false
  | Some v =>
      bool_decide (dom d ⊆ fields_of v)
      && connections_ok (dict_get d "connections")
      && match v with
         | FlowElement.VProcessGroup =>
             match d !! "vars" with Some x => truthy x | None => true end
         | FlowElement.VProcessor =>
             config_ok (ProcessorConfigDTO_init ext) (dict_get d "config")
         | _ => true
         end
  end.

(** The record a process group is built from: [vars], when truthy, has moved
    to [_vars]. *)
Definition renamed_vars (d : gmap string pyval) : gmap string pyval :=
  let d1 := renamed d in
  if truthy (dict_get d1 "vars")
  then <["_vars" := dict_get d1 "vars"]> (delete "vars" d1) else d1.


(** ** Sample data *)

(** DTO constructors that take any keywords. *)
Definition permissive : External :=
  {| ProcessorConfigDTO_init := fun _ => None;
     ControllerServiceDTO_init := fun _ => None;
     ReportingTaskDTO_init := fun _ => None |}.

Definition sample_config_record : gmap string pyval :=
  {[ "package_id" := PStr "org.apache.nifi.Sample" ]}.

(** What [config_from] makes of the record above. *)
Definition sample_config : ElementConfig :=
  {| package_id := PStr "org.apache.nifi.Sample"; dto_kwargs := {[ "properties" := PDict ∅ ]} |}.

(** An input port as its constructor leaves it. *)
Definition sample_port (parent_path : string) : FlowElement.t :=
  FlowElement.InputPort
    (FlowElement.fresh (PStr "in") (PStr parent_path) (PStr "input_port")) None.

Definition sample_controller (name : string) : Controller.t :=
  Controller.mk PNone PNone (PStr name) sample_config.

Definition sample_task : ReportingTask.t :=
  ReportingTask.mk PNone (PStr "task") sample_config ∅.

Definition sample_flow : Flow.t :=
  Flow.mk (PStr "flow") PNone (PStr "1.0")
    (Some [sample_controller "svc1"; sample_controller "svc2"]) (Some [])
    PNone PNone PNone PNone ∅ ∅.

Definition sample_connection_records : list pyval :=
  [PDict {[ "name" := PStr "first"; "to_port" := PStr "in" ]};
   PDict {[ "name" := PStr "second"; "relationships" := PList [PStr "success"] ]}].

Definition sample_connections : list Connection.t :=
  [Connection.mk (PStr "first") PNone (PStr "in") PNone;
   Connection.mk (PStr "second") PNone PNone (PList [PStr "success"])].

(** ** Sample records *)

Definition port_record : gmap string pyval :=
  {[ "type" := PStr "input_port"; "name" := PStr "in"; "parent_path" := PStr "flow" ]}.

(** The port's record with a field the constructor has no parameter for. *)
Definition port_record_extra : gmap string pyval :=
  <["comments" := PStr "entry point"]> port_record.

Definition processor_record : gmap string pyval :=
  {[ "type" := PStr "processor"; "name" := PStr "fetch"; "parent_path" := PStr "flow";
     "config" := PDict sample_config_record;
     "connections" := PList sample_connection_records ]}.

Definition group_record : gmap string pyval :=
  {[ "type" := PStr "process_group"; "name" := PStr "group"; "parent_path" := PStr "flow";
     "component_ref" := PStr "component.yaml";
     "vars" := PDict {[ "threads" := PInt 2 ]} ]}.

Definition nested_port_record : gmap string pyval :=
  <["parent_path" := PStr "flow/group"]> port_record.

Definition nested_elements : pyval := PList [PDict nested_port_record].

(** The group's record with a nested element list. *)
Definition nested_group_record : gmap string pyval :=
  <["elements" := nested_elements]> group_record.

(** The group's record with an empty [vars] mapping. *)
Definition empty_vars_group_record : gmap string pyval :=
  <["vars" := PDict ∅]> group_record.

(** Records whose name holds the delimiter. *)
Definition slash_processor_record : gmap string pyval :=
  <["name" := PStr "fetch/parse"]> processor_record.

Definition slash_widget_record : gmap string pyval :=
  {[ "type" := PStr "widget"; "name" := PStr "a/b"; "parent_path" := PStr "flow" ]}.

(** ** Paths, joins and assignment runs *)

(** [sep.join(l)] *)
Fixpoint str_join (sep : string) (l : list string) : string :=
  match l with
  | [] => ""
  | [s] => s
  | s :: rest => s ++ sep ++ str_join sep rest
  end.

(** The [elements] map reached from [els] by following [front] through
    nested process groups, when each segment names one. *)
Fixpoint level_of (els : gmap string FlowElement.t) (front : list string)
    : option (gmap string FlowElement.t) :=
  match front with
  | [] => Some els
  | n :: rest =>
      match els !! n with
      | Some (FlowElement.ProcessGroup _ _ _ _ _ sub) => level_of sub rest
      | _ => None
      end
  end.

(** [vars(c)] for a connection: the four attributes [__init__] sets. *)
Definition Connection_vars (c : Connection.t) : gmap string pyval :=
  {[ "name" := Connection.name c; "from_port" := Connection.from_port c;
     "to_port" := Connection.to_port c; "relationships" := Connection.relationships c ]}.

(** A run of identity assignments that went through, in any order and
    number, from one state of an element to a later one. *)
Inductive assigns : FlowElement.t -> FlowElement.t -> Prop :=
| assigns_none e : assigns e e
| assigns_id e v e1 e2 :
    FlowElement.set_id e v = Ok e1 -> assigns e1 e2 -> assigns e e2
| assigns_parent_id e v e1 e2 :
    FlowElement.set_parent_id e v = Ok e1 -> assigns e1 e2 -> assigns e e2.

(** A process group [A] that holds the port [in], in a flow resolved so far
    that its [elements] map holds [A]. *)
Definition sample_group : FlowElement.t :=
  FlowElement.ProcessGroup
    (FlowElement.fresh (PStr "A") (PStr "flow") (PStr "process_group"))
    (PStr "component.yaml") (PDict ∅) PNone None
    {[ "in" := sample_port "flow/A" ]}.

Definition resolved_flow : Flow.t :=
  Flow.mk (PStr "flow") PNone (PStr "1.0") (Some []) (Some [sample_group])
    PNone PNone PNone PNone ∅ {[ "A" := sample_group ]}.

(** A port's record whose [parent_path] is [None]. *)
Definition orphan_port_record : gmap string pyval :=
  <["parent_path" := PNone]> port_record.

(** A record named by a number. *)
Definition numbered_record : gmap string pyval :=
  <["name" := PInt 5]> port_record.


(** * Properties *)

(** ** Strings *)

Lemma str_split_go_no_sep sep s :
  str_in sep s = false -> str_split_go sep 0 s = [s].
Proof.
  induction s as [|c s IH]; intros H; [reflexivity|].
  cbn [str_in] in H. apply orb_false_elim in H as [Hp Hs].
  cbn [str_split_go]. rewrite Hp, (IH Hs). reflexivity.
Qed.

Lemma py_split_no_delimiter s :
  str_in PG_NAME_DELIMETER s = false ->
  py_split (PStr s) PG_NAME_DELIMETER = Ok [s].
Proof.
  intros H. cbn [py_split]. unfold str_split.
  replace (String.eqb PG_NAME_DELIMETER "") with false by reflexivity.
  now rewrite str_split_go_no_sep.
Qed.

(** The delimiter is one character: a string holds it as a substring when
    one of its characters is that character. *)
Lemma str_in_delimiter (s : string) :
  str_in PG_NAME_DELIMETER s = true <-> In "/"%char (String.list_ascii_of_string s).
Proof.
  induction s as [|c s IH]; [split; [discriminate|intros []]|].
  cbn [str_in String.list_ascii_of_string In]. rewrite orb_true_iff, IH.
  unfold PG_NAME_DELIMETER. cbn [prefix_b]. rewrite andb_true_r, Ascii.eqb_eq.
  split; (intros [H|H]; [left; congruence|right; exact H]).
Qed.

Example str_split_breadcrumb :
  str_split PG_NAME_DELIMETER "flow/a/b" = Ok ["flow"; "a"; "b"]
  /\ str_split PG_NAME_DELIMETER "" = Ok [""]
  /\ str_split PG_NAME_DELIMETER "/a/" = Ok [""; "a"; ""]
  /\ str_split "ab" "xabyab" = Ok ["x"; "y"; ""].
Proof. repeat split. Qed.

Lemma is_str_true s v : is_str s v = true <-> v = PStr s.
Proof.
  destruct v; cbn; try (split; [discriminate|discriminate]).
  rewrite String.eqb_eq. split; [now intros ->|now intros [= ->]].
Qed.

(** ** Flow.get_parent_element *)

(** C9.  An element whose [parent_path] is a string without the delimiter
    (the empty string included) has the flow itself as parent: the split
    yields one segment, the loop over the segments after the first does not
    run, and the flow object is returned, never [None]. *)
Theorem get_parent_element_root (self : Flow.t) (element : FlowElement.t) (s : string) :
  FlowElement.parent_path (FlowElement.common element) = PStr s ->
  str_in PG_NAME_DELIMETER s = false ->
  Flow.get_parent_element self element = Ok (Flow.TFlow self).
Proof.
  intros Hp Hs. unfold Flow.get_parent_element.
  rewrite Hp, (py_split_no_delimiter _ Hs). reflexivity.
Qed.

Lemma get_parent_element_root_witness :
  Flow.get_parent_element sample_flow (sample_port "flow") = Ok (Flow.TFlow sample_flow)
  /\ Flow.get_parent_element sample_flow (sample_port "") = Ok (Flow.TFlow sample_flow).
Proof.
  split.
  - apply (get_parent_element_root sample_flow (sample_port "flow") "flow"); reflexivity.
  - apply (get_parent_element_root sample_flow (sample_port "") ""); reflexivity.
Defined.

(** The walk over a path is the walk over its front, then over its rest. *)
Lemma descend_app (tg tg' : Flow.target) (front rest : list string) :
  Flow.descend tg front = Ok tg' ->
  Flow.descend tg (front ++ rest) = Flow.descend tg' rest.
Proof.
  revert tg. induction front as [|n front IH]; intros tg; cbn.
  - now intros [= ->].
  - destruct (Flow.target_elements tg) as [els|]; cbn; [apply IH|discriminate].
Qed.

(** The walk as far as it works: when the segments before the last lead to
    the flow or to a process group and the last one is missing there, the
    result is [None]. *)
Lemma descend_last_missing (tg tg' : Flow.target) (els : gmap string FlowElement.t)
    (front : list string) (n : string) :
  Flow.descend tg front = Ok tg' ->
  Flow.target_elements tg' = Ok els ->
  els !! n = None ->
  Flow.descend tg (front ++ [n]) = Ok Flow.TNone.
Proof.
  intros Hf He Hn. rewrite (descend_app _ _ _ _ Hf). cbn. rewrite He. cbn.
  unfold Flow.elements_get. now rewrite Hn.
Qed.

(** When the missing segment is not the last one, the walk holds [None]
    with a segment left, and raises. *)
Lemma descend_missing_then_more (tg tg' : Flow.target) (els : gmap string FlowElement.t)
    (front : list string) (n m : string) (rest : list string) :
  Flow.descend tg front = Ok tg' ->
  Flow.target_elements tg' = Ok els ->
  els !! n = None ->
  Flow.descend tg (front ++ n :: m :: rest) = Raise AttributeError.
Proof.
  intros Hf He Hn. rewrite (descend_app _ _ _ _ Hf). cbn. rewrite He. cbn.
  unfold Flow.elements_get. now rewrite Hn.
Qed.

(** C6.  On a flow that has not been resolved yet (its [elements] map is
    empty) and an element with the breadcrumb [flow/a/b], the segment [a] is
    missing, [target] becomes [None], and the next round reads
    [None.elements]: the call raises [AttributeError] instead of returning
    [None]. *)
Theorem get_parent_element_missing_inner_segment :
  Flow.get_parent_element Flow.init (sample_port "flow/a/b") = Raise AttributeError.
Proof. reflexivity. Qed.

(** ** Flow.find_controller_by_name *)

Lemma filter_first_match {A} (f : A -> bool) (pre : list A) (c : A) (post : list A) :
  Forall (fun x => f x = false) pre -> f c = true ->
  List.filter f (pre ++ c :: post) = c :: List.filter f post.
Proof.
  induction 1 as [|x pre Hx _ IH]; intros Hc; cbn.
  - now rewrite Hc.
  - rewrite Hx. now apply IH.
Qed.

Lemma filter_no_match {A} (f : A -> bool) (l : list A) :
  Forall (fun x => f x = false) l -> List.filter f l = [].
Proof.
  induction 1 as [|x l Hx _ IH]; cbn; [reflexivity|]. now rewrite Hx.
Qed.

(** C7.  With [controllers] a sequence of controllers, the lookup returns
    the first one in scan order whose name is the queried string (a later
    controller of the same name is not reached), and raises [IndexError]
    when no controller has that name.  Names are compared as they are, so a
    name in another case is another name.  The statement holds for the
    empty sequence too, where the lookup raises. *)
Theorem find_controller_by_name_first (self : Flow.t) (cs : list Controller.t) (q : string) :
  Flow.controllers self = Some cs ->
  (forall pre c post,
      cs = (pre ++ c :: post)%list ->
      Forall (fun x => Controller.name x <> PStr q) pre ->
      Controller.name c = PStr q ->
      Flow.find_controller_by_name self q = Ok c)
  /\ (Forall (fun x => Controller.name x <> PStr q) cs ->
      Flow.find_controller_by_name self q = Raise IndexError).
Proof.
  intros Hcs. unfold Flow.find_controller_by_name. rewrite Hcs.
  assert (Hne : forall l, Forall (fun x => Controller.name x <> PStr q) l ->
                  Forall (fun x : Controller.t => is_str q (Controller.name x) = false) l).
  { intros l Hl. eapply Forall_impl; [exact Hl|]. intros x Hx. cbn in Hx |- *.
    destruct (is_str q (Controller.name x)) eqn:E; [|reflexivity].
    apply is_str_true in E. contradiction. }
  split.
  - intros pre c post -> Hpre Hc.
    rewrite (filter_first_match _ pre c post); [reflexivity|now apply Hne|].
    now apply is_str_true.
  - intros Hall. now rewrite (filter_no_match _ cs (Hne _ Hall)).
Qed.

Lemma find_controller_by_name_first_witness :
  Flow.find_controller_by_name sample_flow "svc1" = Ok (sample_controller "svc1")
  /\ Flow.find_controller_by_name sample_flow "svc3" = Raise IndexError.
Proof.
  pose proof (find_controller_by_name_first sample_flow
                [sample_controller "svc1"; sample_controller "svc2"]) as H.
  split.
  - apply (proj1 (H "svc1" eq_refl) [] (sample_controller "svc1") [sample_controller "svc2"]).
    + reflexivity.
    + constructor.
    + reflexivity.
  - apply (proj2 (H "svc3" eq_refl)).
    repeat constructor; discriminate.
Defined.

(** ** The identity properties *)

(** The sample objects are what the constructors return. *)
Example samples_constructed :
  FlowElement.InputPort_init (PStr "in") (PStr "flow") (PStr "input_port") PNone
  = Ok (sample_port "flow")
  /\ snd (Controller.init permissive (PStr "svc1") (PDict sample_config_record))
     = Ok (sample_controller "svc1")
  /\ snd (ReportingTask.init permissive (PStr "task") (PDict sample_config_record))
     = Ok sample_task.
Proof. repeat split. Qed.

(** Whatever a constructor returns has both identities unassigned. *)
Lemma fresh_unassigned (n p ty : pyval) :
  FlowElement._id (FlowElement.fresh n p ty) = PNone
  /\ FlowElement._parent_id (FlowElement.fresh n p ty) = PNone.
Proof. split; reflexivity. Qed.

Lemma controller_init_unassigned (ext : External) (n cfg cfg' : pyval) (c : Controller.t) :
  Controller.init ext n cfg = (cfg', Ok c) ->
  Controller.id c = PNone /\ Controller.parent_id c = PNone.
Proof.
  unfold Controller.init. destruct (config_from _ cfg) as [st [g|e]]; cbn; [|discriminate].
  intros [= _ <-]. split; reflexivity.
Qed.

Lemma reporting_task_init_unassigned (ext : External) (n cfg cfg' : pyval) (r : ReportingTask.t) :
  ReportingTask.init ext n cfg = (cfg', Ok r) ->
  ReportingTask.id r = PNone /\ ReportingTask.parent_id r = Raise AttributeError.
Proof.
  unfold ReportingTask.init. destruct (config_from _ cfg) as [st [g|e]]; cbn; [|discriminate].
  intros [= _ <-]. split; reflexivity.
Qed.

(** C1, as the code has it.  On a [FlowElement] and on a [Controller], for
    [id] and for [parent_id], and on a [ReportingTask] for [id]: while the
    attribute is unassigned, assigning a truthy value (a non-empty
    identifier) succeeds, the value is what a read returns from then on, and
    any further assignment, of the same value or of another, raises
    [FlowLibException]. *)
Theorem identity_write_once (v w : pyval) :
  truthy v = true ->
  (forall e, FlowElement.id e = PNone ->
     exists e', FlowElement.set_id e v = Ok e' /\ FlowElement.id e' = v
                /\ FlowElement.set_id e' w = Raise FlowLibException)
  /\ (forall e, FlowElement.parent_id e = PNone ->
     exists e', FlowElement.set_parent_id e v = Ok e' /\ FlowElement.parent_id e' = v
                /\ FlowElement.set_parent_id e' w = Raise FlowLibException)
  /\ (forall c, Controller.id c = PNone ->
     exists c', Controller.set_id c v = Ok c' /\ Controller.id c' = v
                /\ Controller.set_id c' w = Raise FlowLibException)
  /\ (forall c, Controller.parent_id c = PNone ->
     exists c', Controller.set_parent_id c v = Ok c' /\ Controller.parent_id c' = v
                /\ Controller.set_parent_id c' w = Raise FlowLibException)
  /\ (forall r, ReportingTask.id r = PNone ->
     exists r', ReportingTask.set_id r v = Ok r' /\ ReportingTask.id r' = v
                /\ ReportingTask.set_id r' w = Raise FlowLibException).
Proof.
  intros Hv. repeat split.
  - intros e H. unfold FlowElement.set_id, FlowElement.id in *.
    rewrite H. cbn -[truthy]. eexists; split; [reflexivity|].
    destruct e; cbn -[truthy]; rewrite Hv; split; reflexivity.
  - intros e H. unfold FlowElement.set_parent_id, FlowElement.parent_id in *.
    rewrite H. cbn -[truthy]. eexists; split; [reflexivity|].
    destruct e; cbn -[truthy]; rewrite Hv; split; reflexivity.
  - intros c H. unfold Controller.set_id, Controller.id in *.
    rewrite H. cbn -[truthy]. eexists; split; [reflexivity|].
    cbn -[truthy]. rewrite Hv. split; reflexivity.
  - intros c H. unfold Controller.set_parent_id, Controller.parent_id in *.
    rewrite H. cbn -[truthy]. eexists; split; [reflexivity|].
    cbn -[truthy]. rewrite Hv. split; reflexivity.
  - intros r H. unfold ReportingTask.set_id, ReportingTask.id in *.
    rewrite H. cbn -[truthy]. eexists; split; [reflexivity|].
    cbn -[truthy]. rewrite Hv. split; reflexivity.
Qed.

Lemma identity_write_once_witness :
  exists e', FlowElement.set_id (sample_port "flow") (PStr "7c84501d") = Ok e'
             /\ FlowElement.id e' = PStr "7c84501d"
             /\ FlowElement.set_id e' (PStr "7c84501d") = Raise FlowLibException.
Proof.
  apply (proj1 (identity_write_once (PStr "7c84501d") (PStr "7c84501d") eq_refl)).
  reflexivity.
Defined.

(** C1 as stated fails twice.  A [ReportingTask] has no [parent_id]
    property: the attribute is assigned again and again, and the last value
    is the one read.  And the guard tests the stored value's truth: after a
    first assignment of the empty string the next assignment goes through. *)
Lemma identity_reassigned :
  (exists r1 r2,
      ReportingTask.set_parent_id sample_task (PStr "pg-1") = Ok r1
      /\ ReportingTask.parent_id r1 = Ok (PStr "pg-1")
      /\ ReportingTask.set_parent_id r1 (PStr "pg-2") = Ok r2
      /\ ReportingTask.parent_id r2 = Ok (PStr "pg-2"))
  /\ (exists e1 e2,
      FlowElement.set_id (sample_port "flow") (PStr "") = Ok e1
      /\ FlowElement.id e1 = PStr ""
      /\ FlowElement.set_id e1 (PStr "7c84501d") = Ok e2
      /\ FlowElement.id e2 = PStr "7c84501d").
Proof.
  split.
  - do 2 eexists. repeat split; reflexivity.
  - do 2 eexists. repeat split; reflexivity.
Qed.

(** ** FlowElement.from_dict: the dispatch *)

Lemma dict_get_renamed_type d : dict_get (renamed d) "_type" = dict_get d "type".
Proof. unfold renamed, dict_get. now rewrite lookup_insert_eq. Qed.

Lemma from_dict_accepted (ext : External) (d : gmap string pyval) :
  passes_validation (PDict d) = true ->
  FlowElement.from_dict ext (PDict d) =
    let d1 := renamed d in
    match variant_of_tag (dict_get d "type") with
    | Some FlowElement.VProcessGroup =>
        let d2 := if truthy (dict_get d1 "vars")
                  then <["_vars" := dict_get d1 "vars"]> (delete "vars" d1) else d1 in
        (PDict d2, FlowElement.ProcessGroup_call d2)
    | Some FlowElement.VProcessor =>
        let '(d2, r) := FlowElement.Processor_call ext d1 in (PDict d2, r)
    | Some FlowElement.VInputPort => (PDict d1, FlowElement.InputPort_call d1)
    | Some FlowElement.VOutputPort => (PDict d1, FlowElement.OutputPort_call d1)
    | None => (PDict d1, Raise FlowLibException)
    end.
Proof.
  cbn [passes_validation]. intros [Ht Hn]%andb_true_iff.
  unfold FlowElement.from_dict. rewrite Ht. cbn [negb].
  destruct (FlowElement.name_is_empty (dict_get d "name")) as [[|]|]; try discriminate.
  destruct (py_in PG_NAME_DELIMETER (dict_get d "name")) as [[|]|]; try discriminate.
  fold (renamed d). cbv zeta. rewrite dict_get_renamed_type. unfold variant_of_tag.
  repeat case_match; reflexivity.
Qed.

Lemma from_dict_rejected (ext : External) (elem_dict : pyval) :
  passes_validation elem_dict = false ->
  fst (FlowElement.from_dict ext elem_dict) = elem_dict
  /\ exists e, snd (FlowElement.from_dict ext elem_dict) = Raise e.
Proof.
  destruct elem_dict as [| | | | |d]; cbn [passes_validation FlowElement.from_dict];
    try (intros _; split; [reflexivity|eauto]).
  intros H. destruct (truthy (dict_get d "type")); cbn [negb andb] in *; [|eauto].
  destruct (FlowElement.name_is_empty (dict_get d "name")) as [[|]|]; cbn; eauto.
  destruct (py_in PG_NAME_DELIMETER (dict_get d "name")) as [[|]|]; cbn; eauto.
  discriminate.
Qed.

(** *** What a successful constructor call tells *)

Lemma ProcessGroup_call_Ok (kw : gmap string pyval) (e : FlowElement.t) :
  FlowElement.ProcessGroup_call kw = Ok e ->
  exists n p ty r conns,
    kw !! "name" = Some n /\ kw !! "parent_path" = Some p /\ kw !! "_type" = Some ty
    /\ kw !! "component_ref" = Some r
    /\ dom kw ⊆ FlowElement.ProcessGroup_params
    /\ make_connections (dict_get kw "connections") = Ok conns
    /\ e = FlowElement.ProcessGroup (FlowElement.fresh n p ty) r
             (default (PDict ∅) (kw !! "controllers")) (dict_get kw "_vars") conns ∅.
Proof.
  unfold FlowElement.ProcessGroup_call, FlowElement.ProcessGroup_init.
  case_bool_decide as Hd; [|discriminate].
  destruct (kw !! "name") as [n|], (kw !! "parent_path") as [p|],
    (kw !! "_type") as [ty|], (kw !! "component_ref") as [r|]; try discriminate.
  destruct (make_connections (dict_get kw "connections")) as [conns|] eqn:Hc;
    cbn; [|discriminate].
  intros [= <-]. by exists n, p, ty, r, conns.
Qed.

Lemma Processor_call_Ok (ext : External) (kw : gmap string pyval) (e : FlowElement.t) :
  snd (FlowElement.Processor_call ext kw) = Ok e ->
  exists n p ty cfg conns,
    kw !! "name" = Some n /\ kw !! "parent_path" = Some p /\ kw !! "_type" = Some ty
    /\ dom kw ⊆ FlowElement.Processor_params
    /\ make_connections (dict_get kw "connections") = Ok conns
    /\ e = FlowElement.Processor (FlowElement.fresh n p ty) cfg conns.
Proof.
  unfold FlowElement.Processor_call, FlowElement.Processor_init.
  case_bool_decide as Hd; [|discriminate].
  destruct (kw !! "name") as [n|], (kw !! "parent_path") as [p|],
    (kw !! "_type") as [ty|], (kw !! "config") as [c|]; try discriminate.
  destruct (config_from _ c) as [st [cfg|]]; cbn; [|discriminate].
  destruct (make_connections (dict_get kw "connections")) as [conns|] eqn:Hc;
    cbn; [|discriminate].
  intros [= <-]. by exists n, p, ty, cfg, conns.
Qed.

Lemma InputPort_call_Ok (kw : gmap string pyval) (e : FlowElement.t) :
  FlowElement.InputPort_call kw = Ok e ->
  exists n p ty conns,
    kw !! "name" = Some n /\ kw !! "parent_path" = Some p /\ kw !! "_type" = Some ty
    /\ dom kw ⊆ FlowElement.Port_params
    /\ make_connections (dict_get kw "connections") = Ok conns
    /\ e = FlowElement.InputPort (FlowElement.fresh n p ty) conns.
Proof.
  unfold FlowElement.InputPort_call, FlowElement.InputPort_init.
  case_bool_decide as Hd; [|discriminate].
  destruct (kw !! "name") as [n|], (kw !! "parent_path") as [p|],
    (kw !! "_type") as [ty|]; try discriminate.
  destruct (make_connections (dict_get kw "connections")) as [conns|] eqn:Hc;
    cbn; [|discriminate].
  intros [= <-]. by exists n, p, ty, conns.
Qed.

Lemma OutputPort_call_Ok (kw : gmap string pyval) (e : FlowElement.t) :
  FlowElement.OutputPort_call kw = Ok e ->
  exists n p ty conns,
    kw !! "name" = Some n /\ kw !! "parent_path" = Some p /\ kw !! "_type" = Some ty
    /\ dom kw ⊆ FlowElement.Port_params
    /\ make_connections (dict_get kw "connections") = Ok conns
    /\ e = FlowElement.OutputPort (FlowElement.fresh n p ty) conns.
Proof.
  unfold FlowElement.OutputPort_call, FlowElement.OutputPort_init.
  case_bool_decide as Hd; [|discriminate].
  destruct (kw !! "name") as [n|], (kw !! "parent_path") as [p|],
    (kw !! "_type") as [ty|]; try discriminate.
  destruct (make_connections (dict_get kw "connections")) as [conns|] eqn:Hc;
    cbn; [|discriminate].
  intros [= <-]. by exists n, p, ty, conns.
Qed.

(** ** Connections of a constructed element *)

Lemma make_connections_falsy (connections : pyval) :
  truthy connections = false -> make_connections connections = Ok None.
Proof. intros H. unfold make_connections. now rewrite H. Qed.

Lemma mapM_call_Forall2 (cs : list pyval) (objs : list Connection.t) :
  Forall2 (fun c o => Connection.call c = Ok o) cs objs ->
  mapM Connection.call cs = Ok objs.
Proof.
  induction 1 as [|c o cs objs Hc _ IH]; [reflexivity|].
  cbn. rewrite Hc. cbn. rewrite IH. reflexivity.
Qed.

Lemma make_connections_list (cs : list pyval) (objs : list Connection.t) :
  cs <> [] ->
  Forall2 (fun c o => Connection.call c = Ok o) cs objs ->
  make_connections (PList cs) = Ok (Some objs).
Proof.
  intros Hne H. unfold make_connections.
  destruct cs as [|c cs]; [contradiction|]. cbn [truthy].
  now rewrite (mapM_call_Forall2 _ _ H).
Qed.

(** Conversely, the objects a list of records is turned into are the
    records' own, one by one. *)
Lemma mapM_call_inv (cs : list pyval) (objs : list Connection.t) :
  mapM Connection.call cs = Ok objs ->
  Forall2 (fun c o => Connection.call c = Ok o) cs objs.
Proof.
  revert objs. induction cs as [|c cs IH]; intros objs; cbn.
  - intros [= <-]. constructor.
  - destruct (Connection.call c) as [o|] eqn:Hc; cbn; [|discriminate].
    destruct (mapM Connection.call cs) as [os|]; cbn; [|discriminate].
    intros [= <-]. constructor; [exact Hc|now apply IH].
Qed.

Lemma make_connections_Some_inv (v : pyval) (objs : list Connection.t) :
  make_connections v = Ok (Some objs) ->
  exists cs, v = PList cs /\ cs <> []
             /\ Forall2 (fun c o => Connection.call c = Ok o) cs objs.
Proof.
  unfold make_connections. destruct (truthy v) eqn:Ht; [|discriminate].
  destruct v as [| | | |cs|]; try discriminate.
  destruct (mapM Connection.call cs) as [os|] eqn:Hm; cbn; [|discriminate].
  intros [= <-]. exists cs. repeat split; [|now apply mapM_call_inv].
  intros ->. discriminate.
Qed.

Ltac with_connections H :=
  unfold FlowElement.ProcessGroup_init, FlowElement.InputPort_init,
    FlowElement.OutputPort_init, FlowElement.Processor_init;
  rewrite ?H; cbn; eauto.

(** C10.  In each of the four constructors, a [connections] argument that is
    omitted (the default [None]) or empty gives an element whose
    [connections] attribute is [None], not an empty list; a non-empty list
    of connection records gives the list of the [Connection] objects built
    from the records, one per record and in the records' order.  For
    [Processor] the element exists when its [config] could be built.  The
    last part is the call by keywords: an element built without a
    [connections] keyword has [None] there. *)
Theorem constructors_connections (ext : External) (n p ty r ctl vs cfg : pyval) :
  (forall conns, truthy conns = false ->
     (exists e, FlowElement.ProcessGroup_init n p ty r ctl vs conns = Ok e
                /\ FlowElement.connections e = None)
     /\ (exists e, FlowElement.InputPort_init n p ty conns = Ok e
                   /\ FlowElement.connections e = None)
     /\ (exists e, FlowElement.OutputPort_init n p ty conns = Ok e
                   /\ FlowElement.connections e = None)
     /\ (forall cfg' c, config_from (ProcessorConfigDTO_init ext) cfg = (cfg', Ok c) ->
         exists e, FlowElement.Processor_init ext n p ty cfg conns = (cfg', Ok e)
                   /\ FlowElement.connections e = None))
  /\ (forall cs objs, cs <> [] ->
      Forall2 (fun c o => Connection.call c = Ok o) cs objs ->
      (exists e, FlowElement.ProcessGroup_init n p ty r ctl vs (PList cs) = Ok e
                 /\ FlowElement.connections e = Some objs)
      /\ (exists e, FlowElement.InputPort_init n p ty (PList cs) = Ok e
                    /\ FlowElement.connections e = Some objs)
      /\ (exists e, FlowElement.OutputPort_init n p ty (PList cs) = Ok e
                    /\ FlowElement.connections e = Some objs)
      /\ (forall cfg' c, config_from (ProcessorConfigDTO_init ext) cfg = (cfg', Ok c) ->
          exists e, FlowElement.Processor_init ext n p ty cfg (PList cs) = (cfg', Ok e)
                    /\ FlowElement.connections e = Some objs))
  /\ (forall kw e, kw !! "connections" = None ->
      FlowElement.ProcessGroup_call kw = Ok e
      \/ snd (FlowElement.Processor_call ext kw) = Ok e
      \/ FlowElement.InputPort_call kw = Ok e
      \/ FlowElement.OutputPort_call kw = Ok e ->
      FlowElement.connections e = None).
Proof.
  split; [|split].
  3:{ intros kw e Hk H.
      assert (Hnone : forall conns, make_connections (dict_get kw "connections") = Ok conns ->
                conns = None).
      { intros conns. unfold dict_get. rewrite Hk. cbn. now intros [= <-]. }
      destruct H as [H|[H|[H|H]]].
      - apply ProcessGroup_call_Ok in H as (? & ? & ? & ? & conns & _ & _ & _ & _ & _ & Hc & ->).
        exact (Hnone _ Hc).
      - apply Processor_call_Ok in H as (? & ? & ? & ? & conns & _ & _ & _ & _ & Hc & ->).
        exact (Hnone _ Hc).
      - apply InputPort_call_Ok in H as (? & ? & ? & conns & _ & _ & _ & _ & Hc & ->).
        exact (Hnone _ Hc).
      - apply OutputPort_call_Ok in H as (? & ? & ? & conns & _ & _ & _ & _ & Hc & ->).
        exact (Hnone _ Hc). }
  - intros conns Hf. pose proof (make_connections_falsy _ Hf) as Hm.
    repeat split; try solve [with_connections Hm].
    intros cfg' c Hc. unfold FlowElement.Processor_init. rewrite Hc. cbn.
    rewrite Hm. cbn. eauto.
  - intros cs objs Hne Hall. pose proof (make_connections_list _ _ Hne Hall) as Hm.
    repeat split; try solve [with_connections Hm].
    intros cfg' c Hc. unfold FlowElement.Processor_init. rewrite Hc. cbn.
    rewrite Hm. cbn. eauto.
Qed.

Lemma constructors_connections_witness :
  (exists e, FlowElement.InputPort_init (PStr "in") (PStr "flow") (PStr "input_port")
               (PList []) = Ok e
             /\ FlowElement.connections e = None)
  /\ (exists e, FlowElement.OutputPort_init (PStr "out") (PStr "flow") (PStr "output_port")
                  (PList sample_connection_records) = Ok e
                /\ FlowElement.connections e = Some sample_connections).
Proof.
  split.
  - apply (proj1 (constructors_connections permissive (PStr "in") (PStr "flow")
                    (PStr "input_port") PNone PNone PNone PNone) (PList [])).
    reflexivity.
  - apply (proj1 (proj2 (constructors_connections permissive (PStr "out") (PStr "flow")
                           (PStr "output_port") PNone PNone PNone PNone))
                 sample_connection_records sample_connections).
    + discriminate.
    + repeat constructor.
Defined.

(** *** The renaming leaves the other keys alone *)

Lemma lookup_renamed_type (d : gmap string pyval) :
  renamed d !! "_type" = Some (dict_get d "type") /\ renamed d !! "type" = None.
Proof.
  unfold renamed. split; [apply lookup_insert_eq|].
  rewrite lookup_insert_ne by done. apply lookup_delete_eq.
Qed.

Lemma lookup_renamed_other (d : gmap string pyval) (k : string) :
  k <> "type" -> k <> "_type" -> renamed d !! k = d !! k.
Proof.
  intros H1 H2. unfold renamed.
  rewrite lookup_insert_ne by done. now rewrite lookup_delete_ne.
Qed.

Lemma lookup_renamed_vars_other (d : gmap string pyval) (k : string) :
  k <> "type" -> k <> "_type" -> k <> "vars" -> k <> "_vars" ->
  renamed_vars d !! k = d !! k.
Proof.
  intros H1 H2 H3 H4. unfold renamed_vars. cbv zeta.
  destruct (truthy _).
  - rewrite lookup_insert_ne, lookup_delete_ne by done. now apply lookup_renamed_other.
  - now apply lookup_renamed_other.
Qed.

Lemma lookup_renamed_vars_type (d : gmap string pyval) :
  renamed_vars d !! "_type" = Some (dict_get d "type") /\ renamed_vars d !! "type" = None.
Proof.
  unfold renamed_vars. cbv zeta. destruct (truthy _).
  - rewrite !lookup_insert_ne, !lookup_delete_ne by done. apply lookup_renamed_type.
  - apply lookup_renamed_type.
Qed.

Lemma truthy_get_Some (d : gmap string pyval) (k : string) :
  truthy (dict_get d k) = true -> d !! k = Some (dict_get d k).
Proof. unfold dict_get. destruct (d !! k); [reflexivity|discriminate]. Qed.

Lemma passes_validation_type (d : gmap string pyval) :
  passes_validation (PDict d) = true -> d !! "type" = Some (dict_get d "type").
Proof. cbn. intros [H _]%andb_true_iff. now apply truthy_get_Some. Qed.

(** *** Soundness: what a returned element is *)

Lemma from_dict_Ok (ext : External) (d : gmap string pyval) (e : FlowElement.t) :
  snd (FlowElement.from_dict ext (PDict d)) = Ok e ->
  passes_validation (PDict d) = true
  /\ variant_of_tag (dict_get d "type") = Some (FlowElement.variant_of e)
  /\ d !! "type" = Some (FlowElement.type e)
  /\ d !! "name" = Some (FlowElement.name (FlowElement.common e))
  /\ d !! "parent_path" = Some (FlowElement.parent_path (FlowElement.common e))
  /\ FlowElement.id e = PNone /\ FlowElement.parent_id e = PNone.
Proof.
  intros H.
  destruct (passes_validation (PDict d)) eqn:Hv.
  2:{ destruct (from_dict_rejected ext _ Hv) as [_ [x Hx]]. congruence. }
  split; [reflexivity|].
  pose proof (passes_validation_type d Hv) as Hty.
  rewrite (from_dict_accepted ext d Hv) in H. cbv zeta in H.
  fold (renamed_vars d) in H.
  destruct (variant_of_tag (dict_get d "type")) as [[| | |]|] eqn:Htag; cbn [snd] in H.
  - apply ProcessGroup_call_Ok in H as (n & p & ty & r & conns & Hn & Hp & Ht & _ & _ & _ & ->).
    destruct (lookup_renamed_vars_type d) as [Ht' _].
    rewrite !lookup_renamed_vars_other in Hn, Hp by done.
    rewrite Ht' in Ht. injection Ht as <-.
    rewrite Hty. repeat split; done.
  - destruct (FlowElement.Processor_call ext (renamed d)) as [d2 r] eqn:Hcall.
    cbn [snd] in H. subst r.
    assert (Hs : snd (FlowElement.Processor_call ext (renamed d)) = Ok e) by now rewrite Hcall.
    apply Processor_call_Ok in Hs as (n & p & ty & cfg & conns & Hn & Hp & Ht & _ & _ & ->).
    destruct (lookup_renamed_type d) as [Ht' _].
    rewrite !lookup_renamed_other in Hn, Hp by done.
    rewrite Ht' in Ht. injection Ht as <-.
    rewrite Hty. repeat split; done.
  - apply InputPort_call_Ok in H as (n & p & ty & conns & Hn & Hp & Ht & _ & _ & ->).
    destruct (lookup_renamed_type d) as [Ht' _].
    rewrite !lookup_renamed_other in Hn, Hp by done.
    rewrite Ht' in Ht. injection Ht as <-.
    rewrite Hty. repeat split; done.
  - apply OutputPort_call_Ok in H as (n & p & ty & conns & Hn & Hp & Ht & _ & _ & ->).
    destruct (lookup_renamed_type d) as [Ht' _].
    rewrite !lookup_renamed_other in Hn, Hp by done.
    rewrite Ht' in Ht. injection Ht as <-.
    rewrite Hty. repeat split; done.
  - discriminate.
Qed.

(** *** Totality: a valid record is built *)

Lemma connection_record_ok_call (c : pyval) :
  connection_record_ok c = true -> exists o, Connection.call c = Ok o.
Proof.
  destruct c as [| | | | |kw]; try discriminate. cbn.
  intros [Hd Hn]%andb_true_iff.
  rewrite Hd. apply bool_decide_eq_true in Hn as [n ->]. eauto.
Qed.

Lemma mapM_call_ok (cs : list pyval) :
  forallb connection_record_ok cs = true ->
  exists objs, mapM Connection.call cs = Ok objs.
Proof.
  induction cs as [|c cs IH]; cbn; [eauto|].
  intros [Hc Hcs]%andb_true_iff.
  destruct (connection_record_ok_call c Hc) as [o ->].
  destruct (IH Hcs) as [objs ->]. cbn. eauto.
Qed.

Lemma make_connections_ok (v : pyval) :
  connections_ok v = true -> exists conns, make_connections v = Ok conns.
Proof.
  unfold connections_ok, make_connections.
  destruct (truthy v); cbn [negb orb]; [|eauto].
  destruct v as [| | | |cs|]; try discriminate.
  intros H. destruct (mapM_call_ok cs H) as [objs ->]. cbn. eauto.
Qed.

Lemma config_ok_from (dto_init : gmap string pyval -> option exn) (cfg : pyval) :
  config_ok dto_init cfg = true ->
  exists st c, config_from dto_init cfg = (st, Ok c).
Proof.
  destruct cfg as [| | | | |c]; try discriminate. cbn [config_ok].
  intros [[Hp Hs]%andb_true_iff Hd]%andb_true_iff.
  apply bool_decide_eq_true in Hp as [pkg Hp].
  apply negb_true_iff, bool_decide_eq_false in Hs.
  unfold config_from. cbn [py_in].
  set (c1 := if bool_decide (is_Some (c !! "properties")) then c
             else <["properties" := PDict ∅]> c) in *.
  assert (H1 : forall k, k <> "properties" -> c1 !! k = c !! k).
  { intros k Hk. subst c1. case_bool_decide; [reflexivity|].
    now rewrite lookup_insert_ne. }
  rewrite (H1 "package_id"), Hp by done.
  unfold ElementConfig_init.
  rewrite lookup_delete_ne, (H1 "self") by done.
  rewrite bool_decide_eq_false_2 by done.
  destruct (dto_init (delete "package_id" c1)); [discriminate|]. eauto.
Qed.

Lemma name_ok_passes (s : string) :
  String.eqb s "" = false -> str_in PG_NAME_DELIMETER s = false ->
  FlowElement.name_is_empty (PStr s) = Ok false
  /\ py_in PG_NAME_DELIMETER (PStr s) = Ok false.
Proof.
  intros Hs Hd. unfold FlowElement.name_is_empty. cbn. rewrite Hs, Hd. cbn.
  destruct s; [discriminate|]. split; reflexivity.
Qed.

Lemma variant_of_tag_truthy (ty : pyval) (v : FlowElement.variant) :
  variant_of_tag ty = Some v -> truthy ty = true.
Proof.
  destruct ty as [| | |s| |]; try discriminate.
  destruct s; [discriminate|reflexivity].
Qed.

Lemma has_required_fields_passes (d : gmap string pyval) :
  has_required_fields d = true -> passes_validation (PDict d) = true.
Proof.
  unfold has_required_fields. cbn [passes_validation].
  destruct (variant_of_tag (dict_get d "type")) as [v|] eqn:Hv; [|discriminate].
  rewrite (variant_of_tag_truthy _ _ Hv).
  destruct (dict_get d "name") as [| | |s| |]; try discriminate.
  intros [[Hs Hd%negb_true_iff]%andb_true_iff _]%andb_true_iff.
  apply negb_true_iff in Hs.
  destruct (name_ok_passes s Hs Hd) as [-> ->]. reflexivity.
Qed.

Lemma dict_get_Some (d : gmap string pyval) (k : string) (x : pyval) :
  d !! k = Some x -> dict_get d k = x.
Proof. unfold dict_get. now intros ->. Qed.

Lemma dict_get_None (d : gmap string pyval) (k : string) :
  d !! k = None -> dict_get d k = PNone.
Proof. unfold dict_get. now intros ->. Qed.

Lemma dict_get_renamed_other (d : gmap string pyval) (k : string) :
  k <> "type" -> k <> "_type" -> dict_get (renamed d) k = dict_get d k.
Proof. intros. unfold dict_get. now rewrite lookup_renamed_other. Qed.

Lemma dom_renamed (d : gmap string pyval) (fields params : list string) :
  dom d ⊆ list_to_set fields ->
  (forall k, k ∈ fields -> k <> "type" -> k ∈ params) ->
  "_type" ∈ params ->
  dom (renamed d) ⊆ (list_to_set params : gset string).
Proof.
  intros Hd Hf Ht k [x Hx]%elem_of_dom. apply elem_of_list_to_set.
  destruct (decide (k = "_type")) as [->|Hk]; [exact Ht|].
  destruct (decide (k = "type")) as [->|Hk2].
  { destruct (lookup_renamed_type d) as [_ Hn]. congruence. }
  rewrite lookup_renamed_other in Hx by done.
  apply Hf; [|exact Hk2].
  apply (elem_of_list_to_set (C := gset string)), Hd, elem_of_dom. eauto.
Qed.

Ltac in_list := solve [repeat first [apply list_elem_of_here | apply list_elem_of_further]].

Ltac each_field Hk :=
  repeat (apply elem_of_cons in Hk as [->|Hk]); try done; try in_list;
  try (by apply elem_of_nil in Hk).

Lemma dom_renamed_port (d : gmap string pyval) :
  dom d ⊆ fields_of FlowElement.VInputPort -> dom (renamed d) ⊆ FlowElement.Port_params.
Proof.
  intros H. apply (dom_renamed d _ _ H); [|in_list].
  intros k Hk Hne. each_field Hk.
Qed.

Lemma dom_renamed_processor (d : gmap string pyval) :
  dom d ⊆ fields_of FlowElement.VProcessor ->
  dom (renamed d) ⊆ FlowElement.Processor_params.
Proof.
  intros H. apply (dom_renamed d _ _ H); [|in_list].
  intros k Hk Hne. each_field Hk.
Qed.

Lemma dom_renamed_vars (d : gmap string pyval) :
  dom d ⊆ fields_of FlowElement.VProcessGroup ->
  match d !! "vars" with Some x => truthy x | None => true end = true ->
  dom (renamed_vars d) ⊆ FlowElement.ProcessGroup_params.
Proof.
  intros Hd Hv.
  assert (Hr : dom (renamed d) ⊆
               (list_to_set ["vars"; "name"; "parent_path"; "_type"; "component_ref";
                             "controllers"; "_vars"; "connections"] : gset string)).
  { apply (dom_renamed d _ _ Hd); [|in_list]. intros k Hk Hne. each_field Hk. }
  intros k [x Hx]%elem_of_dom. apply elem_of_list_to_set.
  unfold renamed_vars in Hx. cbv zeta in Hx.
  rewrite (dict_get_renamed_other d "vars") in Hx by done.
  assert (Hin : renamed d !! k = Some x -> k <> "vars" ->
                k ∈ ["name"; "parent_path"; "_type"; "component_ref"; "controllers";
                     "_vars"; "connections"]).
  { intros Hk Hne.
    assert (Hk' : k ∈ dom (renamed d)) by (apply elem_of_dom; eauto).
    apply Hr, elem_of_list_to_set in Hk'. each_field Hk'. }
  destruct (d !! "vars") as [y|] eqn:Hy.
  - rewrite (dict_get_Some _ _ _ Hy), Hv in Hx.
    destruct (decide (k = "_vars")) as [->|Hk]; [in_list|].
    rewrite lookup_insert_ne in Hx by done.
    destruct (decide (k = "vars")) as [->|Hk2].
    + rewrite lookup_delete_eq in Hx. discriminate.
    + rewrite lookup_delete_ne in Hx by done. now apply Hin.
  - rewrite (dict_get_None _ _ Hy) in Hx. cbn [truthy] in Hx.
    apply Hin; [exact Hx|]. intros ->.
    rewrite lookup_renamed_other in Hx by done. congruence.
Qed.

Lemma from_dict_valid_returns (ext : External) (d : gmap string pyval) :
  valid_record ext d = true ->
  exists e, snd (FlowElement.from_dict ext (PDict d)) = Ok e.
Proof.
  unfold valid_record. intros [Hreq Hrest]%andb_true_iff.
  pose proof (has_required_fields_passes d Hreq) as Hpass.
  rewrite (from_dict_accepted ext d Hpass). cbv zeta. fold (renamed_vars d).
  unfold has_required_fields in Hreq.
  destruct (variant_of_tag (dict_get d "type")) as [v|]; [|discriminate].
  apply andb_true_iff in Hreq as [Hname Hreq].
  assert (Hn : is_Some (d !! "name")).
  { unfold dict_get in Hname. destruct (d !! "name"); [eauto|discriminate]. }
  destruct Hn as [n Hn].
  apply andb_true_iff in Hrest as [[Hdom%bool_decide_eq_true Hconn]%andb_true_iff Hvar].
  destruct (make_connections_ok _ Hconn) as [conns Hmk].
  destruct v; cbn [required_of forallb] in Hreq; cbn [snd].
  - apply andb_true_iff in Hreq as [[p Hp]%bool_decide_eq_true Hreq].
    apply andb_true_iff in Hreq as [[r Hr]%bool_decide_eq_true _].
    unfold FlowElement.ProcessGroup_call.
    rewrite bool_decide_eq_true_2 by now apply dom_renamed_vars.
    destruct (lookup_renamed_vars_type d) as [-> _].
    rewrite !lookup_renamed_vars_other by done. rewrite Hn, Hp, Hr.
    unfold FlowElement.ProcessGroup_init.
    replace (dict_get (renamed_vars d) "connections") with (dict_get d "connections")
      by (unfold dict_get; now rewrite lookup_renamed_vars_other).
    rewrite Hmk. cbn. eauto.
  - apply andb_true_iff in Hreq as [[p Hp]%bool_decide_eq_true Hreq].
    apply andb_true_iff in Hreq as [[c Hc]%bool_decide_eq_true _].
    unfold FlowElement.Processor_call.
    rewrite bool_decide_eq_true_2 by now apply dom_renamed_processor.
    destruct (lookup_renamed_type d) as [-> _].
    rewrite !lookup_renamed_other by done. rewrite Hn, Hp, Hc.
    unfold FlowElement.Processor_init.
    rewrite (dict_get_Some _ _ _ Hc) in Hvar.
    destruct (config_ok_from _ _ Hvar) as (st & cfg & ->).
    rewrite dict_get_renamed_other by done. rewrite Hmk. cbn. eauto.
  - apply andb_true_iff in Hreq as [[p Hp]%bool_decide_eq_true _].
    unfold FlowElement.InputPort_call.
    rewrite bool_decide_eq_true_2 by now apply dom_renamed_port.
    destruct (lookup_renamed_type d) as [-> _].
    rewrite !lookup_renamed_other by done. rewrite Hn, Hp.
    unfold FlowElement.InputPort_init.
    rewrite dict_get_renamed_other by done. rewrite Hmk. cbn. eauto.
  - apply andb_true_iff in Hreq as [[p Hp]%bool_decide_eq_true _].
    unfold FlowElement.OutputPort_call.
    rewrite bool_decide_eq_true_2 by now apply dom_renamed_port.
    destruct (lookup_renamed_type d) as [-> _].
    rewrite !lookup_renamed_other by done. rewrite Hn, Hp.
    unfold FlowElement.OutputPort_init.
    rewrite dict_get_renamed_other by done. rewrite Hmk. cbn. eauto.
Qed.

(** ** FlowElement.from_dict: the checks *)

(** X15.  The three checks as they work: a value that is no mapping, a mapping
    without a truthy [type], and one without a truthy [name] are refused
    with [FlowLibException]; so is a record that passes the checks with a
    discriminator outside the four tags. *)
Lemma from_dict_structural_errors (ext : External) (elem_dict : pyval) :
  ((forall d, elem_dict <> PDict d) ->
   snd (FlowElement.from_dict ext elem_dict) = Raise FlowLibException)
  /\ (forall d, elem_dict = PDict d ->
      (truthy (dict_get d "type") = false ->
       snd (FlowElement.from_dict ext elem_dict) = Raise FlowLibException)
      /\ (truthy (dict_get d "name") = false ->
          snd (FlowElement.from_dict ext elem_dict) = Raise FlowLibException)
      /\ (passes_validation elem_dict = true ->
          variant_of_tag (dict_get d "type") = None ->
          snd (FlowElement.from_dict ext elem_dict) = Raise FlowLibException)).
Proof.
  split.
  - destruct elem_dict as [| | | | |d]; try reflexivity. intros H. now destruct (H d).
  - intros d ->. repeat split.
    + intros H. cbn. now rewrite H.
    + intros H. cbn. unfold FlowElement.name_is_empty. rewrite H. cbn.
      now destruct (truthy (dict_get d "type")).
    + intros Hv Ht. rewrite (from_dict_accepted ext d Hv). cbv zeta. now rewrite Ht.
Qed.

(** A string name that holds the delimiter: the call ends while the
    message of the exception is put together. *)
Lemma from_dict_delimiter (ext : External) (d : gmap string pyval) (s : string) :
  truthy (dict_get d "type") = true ->
  dict_get d "name" = PStr s ->
  str_in PG_NAME_DELIMETER s = true ->
  FlowElement.from_dict ext (PDict d) = (PDict d, Raise AttributeError).
Proof.
  intros Ht Hn Hs. unfold FlowElement.from_dict. rewrite Ht, Hn. cbn [negb].
  assert (Hne : String.eqb s "" = false) by (destruct s; [discriminate|reflexivity]).
  unfold FlowElement.name_is_empty. cbn [truthy py_len py_in]. rewrite Hne, Hs. cbn.
  destruct s; [discriminate|]. reflexivity.
Qed.

(** C3.  A processor record named [fetch/parse]: the delimiter is found, and
    the [raise] statement reads [Flow.PG_DELIMETER], which the class does not
    have (the constant is the module's [PG_NAME_DELIMETER]).  The call ends
    in [AttributeError], not in [FlowLibException]; the record is as it was. *)
Theorem from_dict_delimiter_in_name (ext : External) :
  FlowElement.from_dict ext (PDict slash_processor_record)
  = (PDict slash_processor_record, Raise AttributeError).
Proof. now apply (from_dict_delimiter ext slash_processor_record "fetch/parse"). Qed.

(** C2.  A record with the unknown discriminator [widget] and the name
    [a/b]: the name is checked before the discriminator, and the check ends
    in [AttributeError] as above, not in [FlowLibException]. *)
Theorem from_dict_unknown_type_delimiter_in_name (ext : External) :
  FlowElement.from_dict ext (PDict slash_widget_record)
  = (PDict slash_widget_record, Raise AttributeError).
Proof. now apply (from_dict_delimiter ext slash_widget_record "a/b"). Qed.

(** ** FlowElement.from_dict: the element built *)

(** C4, as the code has it.  A record with a recognized discriminator, a
    non-empty string name without the delimiter, the fields its variant
    requires and no field its constructor has no parameter for (with [vars]
    non-empty when given, a [config] the processor can be configured from,
    and connections that are absent, empty or a list of connection records)
    is built into one element of the variant the discriminator selects; the
    element's type, name and parent path are the record's values. *)
Theorem from_dict_valid_record (ext : External) (d : gmap string pyval) :
  valid_record ext d = true ->
  exists e v,
    snd (FlowElement.from_dict ext (PDict d)) = Ok e
    /\ variant_of_tag (dict_get d "type") = Some v
    /\ FlowElement.variant_of e = v
    /\ d !! "type" = Some (FlowElement.type e)
    /\ d !! "name" = Some (FlowElement.name (FlowElement.common e))
    /\ d !! "parent_path" = Some (FlowElement.parent_path (FlowElement.common e)).
Proof.
  intros Hv. destruct (from_dict_valid_returns ext d Hv) as [e He].
  destruct (from_dict_Ok ext d e He) as (_ & Htag & Hty & Hn & Hp & _).
  exists e, (FlowElement.variant_of e). repeat split; assumption.
Qed.

Lemma from_dict_valid_record_witness :
  exists e v,
    snd (FlowElement.from_dict permissive (PDict processor_record)) = Ok e
    /\ variant_of_tag (dict_get processor_record "type") = Some v
    /\ FlowElement.variant_of e = v
    /\ processor_record !! "type" = Some (FlowElement.type e)
    /\ processor_record !! "name" = Some (FlowElement.name (FlowElement.common e))
    /\ processor_record !! "parent_path"
       = Some (FlowElement.parent_path (FlowElement.common e)).
Proof.
  apply (from_dict_valid_record permissive processor_record).
  vm_compute. reflexivity.
Defined.

(** C4 as stated fails.  The port's record has a recognized discriminator, a
    good name and the required [parent_path], and one more field: binding
    the keywords of [InputPort] raises [TypeError].  The group's record with
    an empty [vars] has all a process group requires: the empty mapping is
    falsy, [vars] keeps its name, and binding the keywords of [ProcessGroup]
    raises [TypeError]. *)
Lemma from_dict_unbound_field :
  (has_required_fields port_record_extra = true
   /\ forall ext,
       snd (FlowElement.from_dict ext (PDict port_record_extra)) = Raise TypeError)
  /\ (has_required_fields empty_vars_group_record = true
      /\ forall ext,
          snd (FlowElement.from_dict ext (PDict empty_vars_group_record)) = Raise TypeError).
Proof. repeat split; intros ext; reflexivity. Qed.

(** ** FlowElement.from_dict: process groups *)

Lemma variant_of_tag_process_group (ty : pyval) :
  is_str "process_group" ty = true -> variant_of_tag ty = Some FlowElement.VProcessGroup.
Proof. intros H. unfold variant_of_tag. now rewrite H. Qed.

(** C5, as the code has it.  For a record with the discriminator
    [process_group]: the group the factory returns has an empty [elements]
    map (the factory builds no subtree); a record that carries a nested
    [elements] list is never built; the group's [vars] is the record's
    [vars] when that is truthy; when the record has no [vars] key it is the
    record's own [_vars] if it carries one, and [None] otherwise; and a
    valid record is built. *)
Theorem from_dict_process_group (ext : External) (d : gmap string pyval) :
  is_str "process_group" (dict_get d "type") = true ->
  (forall e, snd (FlowElement.from_dict ext (PDict d)) = Ok e ->
     exists c r k vs conns,
       e = FlowElement.ProcessGroup c r k vs conns ∅
       /\ (truthy (dict_get d "vars") = true -> vs = dict_get d "vars")
       /\ (d !! "vars" = None -> vs = dict_get d "_vars"))
  /\ (is_Some (d !! "elements") ->
      forall e, snd (FlowElement.from_dict ext (PDict d)) <> Ok e)
  /\ (valid_record ext d = true ->
      exists e, snd (FlowElement.from_dict ext (PDict d)) = Ok e).
Proof.
  intros Htag%variant_of_tag_process_group.
  assert (Hinv : forall e, snd (FlowElement.from_dict ext (PDict d)) = Ok e ->
            FlowElement.ProcessGroup_call (renamed_vars d) = Ok e).
  { intros e He. destruct (from_dict_Ok ext d e He) as (Hv & _).
    rewrite (from_dict_accepted ext d Hv) in He. cbv zeta in He.
    now rewrite Htag in He. }
  repeat split.
  - intros e He%Hinv.
    apply ProcessGroup_call_Ok in He as (n & p & ty & r & conns & _ & _ & _ & _ & _ & _ & ->).
    do 5 eexists. split; [reflexivity|]. split.
    + intros Hv. unfold renamed_vars. cbv zeta.
      rewrite (dict_get_renamed_other d "vars") by done. rewrite Hv.
      unfold dict_get at 1. now rewrite lookup_insert_eq.
    + intros Hv. unfold renamed_vars. cbv zeta.
      rewrite (dict_get_renamed_other d "vars") by done.
      rewrite (dict_get_None _ _ Hv). cbn [truthy].
      now rewrite (dict_get_renamed_other d "_vars") by done.
  - intros [x Hx] e He%Hinv.
    apply ProcessGroup_call_Ok in He as (n & p & ty & r & conns & _ & _ & _ & _ & Hd & _).
    assert (Hin : "elements" ∈ dom (renamed_vars d)).
    { apply elem_of_dom. rewrite lookup_renamed_vars_other by done. eauto. }
    apply Hd, elem_of_list_to_set in Hin.
    repeat (apply elem_of_cons in Hin as [Heq|Hin]; [discriminate Heq|]).
    now apply elem_of_nil in Hin.
  - apply from_dict_valid_returns.
Qed.

Lemma from_dict_process_group_witness :
  exists c r k conns,
    snd (FlowElement.from_dict permissive (PDict group_record))
    = Ok (FlowElement.ProcessGroup c r k (dict_get group_record "vars") conns ∅).
Proof.
  destruct (from_dict_process_group permissive group_record eq_refl) as (Hshape & _ & Hret).
  destruct (Hret eq_refl) as [e He].
  destruct (Hshape e He) as (c & r & k & vs & conns & -> & Hvars & _).
  rewrite (Hvars eq_refl) in He. exists c, r, k, conns. exact He.
Defined.

(** C5 as stated fails: the group's record with a nested element list is
    not built at all, the keyword [elements] names no parameter of
    [ProcessGroup]; and the same record without the list is built into a
    group whose [elements] map is empty. *)
Lemma from_dict_nested_elements :
  (forall ext,
      snd (FlowElement.from_dict ext (PDict nested_group_record)) = Raise TypeError)
  /\ (forall ext, exists c r k vs conns,
      snd (FlowElement.from_dict ext (PDict group_record))
      = Ok (FlowElement.ProcessGroup c r k vs conns ∅)).
Proof.
  split; intros ext.
  - reflexivity.
  - do 5 eexists. vm_compute. reflexivity.
Qed.

(** ** FlowElement.from_dict: the caller's record *)

Lemma Processor_call_state (ext : External) (kw : gmap string pyval) (k : string) :
  k <> "config" -> fst (FlowElement.Processor_call ext kw) !! k = kw !! k.
Proof.
  intros Hk. unfold FlowElement.Processor_call.
  case_bool_decide; [|reflexivity].
  destruct (kw !! "name"), (kw !! "parent_path"), (kw !! "_type"), (kw !! "config");
    try reflexivity.
  destruct (FlowElement.Processor_init _ _ _ _ _ _) as [cfg' r]. cbn [fst].
  now rewrite lookup_insert_ne.
Qed.




(** * Further properties *)

(** ** Flow.find_controller_by_name: every outcome *)

Lemma filter_cons_inv {A} (f : A -> bool) (l : list A) (c : A) (rest : list A) :
  List.filter f l = c :: rest ->
  exists pre post, l = (pre ++ c :: post)%list
                   /\ Forall (fun x => f x = false) pre /\ f c = true.
Proof.
  induction l as [|x l IH]; cbn; [discriminate|].
  destruct (f x) eqn:Hx.
  - intros [= -> _]. exists [], l. repeat split; [constructor|exact Hx].
  - intros H. destruct (IH H) as (pre & post & -> & Hpre & Hc).
    exists (x :: pre), post. repeat split; [constructor; assumption|exact Hc].
Qed.

Lemma filter_nil_inv {A} (f : A -> bool) (l : list A) :
  List.filter f l = [] -> Forall (fun x => f x = false) l.
Proof.
  induction l as [|x l IH]; cbn; [constructor|].
  destruct (f x) eqn:Hx; [discriminate|]. intros H. constructor; auto.
Qed.

Lemma is_str_false (s : string) (v : pyval) : is_str s v = false <-> v <> PStr s.
Proof.
  rewrite <- is_str_true. destruct (is_str s v); split; congruence.
Qed.

(** X1.  The lookup as far as [controllers] is [None] or a sequence of
    controllers.  While [controllers] is [None], as [Flow()] leaves it, the
    lookup raises [TypeError] for every name.  On a sequence, whatever the
    lookup returns is a member that carries the queried name with no member
    before it doing so, and the only exception is [IndexError], raised only
    when no member carries the name. *)
Theorem find_controller_by_name_outcomes (self : Flow.t) (q : string) :
  (Flow.controllers self = None ->
   Flow.find_controller_by_name self q = Raise TypeError)
  /\ (forall cs, Flow.controllers self = Some cs ->
      match Flow.find_controller_by_name self q with
      | Ok c =>
          exists pre post,
            cs = (pre ++ c :: post)%list
            /\ Controller.name c = PStr q
            /\ Forall (fun x => Controller.name x <> PStr q) pre
      | Raise e =>
          e = IndexError /\ Forall (fun x => Controller.name x <> PStr q) cs
      end).
Proof.
  unfold Flow.find_controller_by_name. split; [now intros ->|].
  intros cs ->.
  destruct (List.filter _ cs) as [|c rest] eqn:Hf.
  - split; [reflexivity|].
    apply filter_nil_inv in Hf. eapply Forall_impl; [exact Hf|].
    intros x Hx. now apply is_str_false.
  - apply filter_cons_inv in Hf as (pre & post & -> & Hpre & Hc).
    exists pre, post. repeat split.
    + now apply is_str_true.
    + eapply Forall_impl; [exact Hpre|]. intros x Hx. now apply is_str_false.
Qed.

Lemma find_controller_by_name_outcomes_witness :
  Flow.find_controller_by_name Flow.init "svc1" = Raise TypeError
  /\ exists pre post,
       [sample_controller "svc1"; sample_controller "svc2"]
       = (pre ++ sample_controller "svc2" :: post)%list
       /\ Controller.name (sample_controller "svc2") = PStr "svc2"
       /\ Forall (fun x => Controller.name x <> PStr "svc2") pre.
Proof.
  split.
  - apply (proj1 (find_controller_by_name_outcomes Flow.init "svc1")). reflexivity.
  - apply (proj2 (find_controller_by_name_outcomes sample_flow "svc2")
             [sample_controller "svc1"; sample_controller "svc2"] eq_refl).
Defined.

(** ** Flow.get_parent_element: the whole walk *)

Lemma str_split_go_delimiter (s t : string) :
  str_in PG_NAME_DELIMETER s = false ->
  str_split_go PG_NAME_DELIMETER 0 (s ++ PG_NAME_DELIMETER ++ t)
  = s :: str_split_go PG_NAME_DELIMETER 0 t.
Proof.
  induction s as [|c s IH]; intros H; [reflexivity|].
  cbn [str_in] in H. apply orb_false_elim in H as [Hp Hs].
  change ((String c s ++ PG_NAME_DELIMETER ++ t)%string)
    with (String c (s ++ PG_NAME_DELIMETER ++ t)%string).
  cbn [str_split_go].
  assert (Hp' : prefix_b PG_NAME_DELIMETER (String c (s ++ PG_NAME_DELIMETER ++ t)) = false).
  { revert Hp. unfold PG_NAME_DELIMETER. cbn [prefix_b]. now rewrite !andb_true_r. }
  rewrite Hp', (IH Hs). reflexivity.
Qed.

(** Splitting a breadcrumb gives back the names it was joined from. *)
Lemma str_split_join (l : list string) :
  l <> [] ->
  Forall (fun s => str_in PG_NAME_DELIMETER s = false) l ->
  str_split PG_NAME_DELIMETER (str_join PG_NAME_DELIMETER l) = Ok l.
Proof.
  intros Hne Hall. unfold str_split.
  replace (String.eqb PG_NAME_DELIMETER "") with false by reflexivity. f_equal.
  induction Hall as [|s l Hs Hl IH]; [contradiction|].
  destruct l as [|s' l]; [now apply str_split_go_no_sep|].
  change (str_join PG_NAME_DELIMETER (s :: s' :: l))
    with ((s ++ PG_NAME_DELIMETER ++ str_join PG_NAME_DELIMETER (s' :: l))%string).
  rewrite (str_split_go_delimiter _ _ Hs), IH; [reflexivity|discriminate].
Qed.

Lemma descend_raises (tg : Flow.target) (names : list string) :
  Flow.target_elements tg = Raise AttributeError -> names <> [] ->
  Flow.descend tg names = Raise AttributeError.
Proof. intros H Hn. destruct names; [contradiction|]. cbn. now rewrite H. Qed.

Lemma descend_level (tg : Flow.target) (els : gmap string FlowElement.t)
    (front : list string) (n : string) :
  Flow.target_elements tg = Ok els ->
  Flow.descend tg (front ++ [n])
  = match level_of els front with
    | Some els' => Ok (Flow.elements_get els' n)
    | None => Raise AttributeError
    end.
Proof.
  revert tg els. induction front as [|m front IH]; intros tg els He.
  - cbn. now rewrite He.
  - cbn [app Flow.descend level_of]. rewrite He. cbn. unfold Flow.elements_get at 1.
    destruct (els !! m) as [[c r k v cn sub| | |]|].
    + now apply IH.
    + apply descend_raises; [reflexivity|now destruct front].
    + apply descend_raises; [reflexivity|now destruct front].
    + apply descend_raises; [reflexivity|now destruct front].
    + apply descend_raises; [reflexivity|now destruct front].
Qed.

(** X2.  For an element whose breadcrumb joins a root name and the segments
    [front ++ [n]], none holding the delimiter: when [front] leads through
    nested process groups to a level, the parent is what that level's
    [elements] map holds under [n] ([None] when it holds nothing); when
    [front] does not lead through process groups (a segment is missing or
    names a processor or port), the call raises [AttributeError].  The root
    name plays no part. *)
Theorem get_parent_element_walk (self : Flow.t) (element : FlowElement.t)
    (root : string) (front : list string) (n : string) :
  FlowElement.parent_path (FlowElement.common element)
  = PStr (str_join PG_NAME_DELIMETER (root :: front ++ [n])) ->
  Forall (fun s => str_in PG_NAME_DELIMETER s = false) (root :: front ++ [n]) ->
  Flow.get_parent_element self element
  = match level_of (Flow.elements self) front with
    | Some els => Ok (Flow.elements_get els n)
    | None => Raise AttributeError
    end.
Proof.
  intros Hp Hall. unfold Flow.get_parent_element. rewrite Hp. cbn [py_split].
  rewrite str_split_join; [|discriminate|exact Hall]. cbn [mbind result_bind tail].
  now apply descend_level.
Qed.

Lemma get_parent_element_walk_witness :
  Flow.get_parent_element resolved_flow (sample_port "flow/A") = Ok (Flow.TElem sample_group)
  /\ Flow.get_parent_element resolved_flow (sample_port "flow/A/in/x")
     = Raise AttributeError.
Proof.
  split.
  - apply (get_parent_element_walk resolved_flow (sample_port "flow/A") "flow" [] "A").
    + reflexivity.
    + repeat constructor.
  - apply (get_parent_element_walk resolved_flow (sample_port "flow/A/in/x")
             "flow" ["A"; "in"] "x").
    + reflexivity.
    + repeat constructor.
Defined.

Lemma str_split_go_nonempty (sep : string) (skip : nat) (s : string) :
  str_split_go sep skip s <> [].
Proof.
  revert skip. induction s as [|c s IH]; intros skip; cbn; [discriminate|].
  destruct skip as [|k]; [|apply IH].
  destruct (prefix_b sep (String c s)); [discriminate|].
  destruct (str_split_go sep 0 s); discriminate.
Qed.

Lemma list_snoc_inv {A} (l : list A) : l <> [] -> exists front x, l = (front ++ [x])%list.
Proof.
  induction l as [|a l IH]; [contradiction|]. intros _.
  destruct l as [|b l]; [now exists [], a|].
  destruct IH as (front & x & ->); [discriminate|]. now exists (a :: front), x.
Qed.

(** X3.  [None] comes back only for a breadcrumb whose last segment is missing
    from a level that the segments before it have reached through process
    groups: never for a breadcrumb of one segment, and never when an
    earlier segment is the missing one. *)
Theorem get_parent_element_none (self : Flow.t) (element : FlowElement.t) :
  Flow.get_parent_element self element = Ok Flow.TNone ->
  exists root front n els,
    py_split (FlowElement.parent_path (FlowElement.common element)) PG_NAME_DELIMETER
    = Ok (root :: front ++ [n])
    /\ level_of (Flow.elements self) front = Some els
    /\ els !! n = None.
Proof.
  unfold Flow.get_parent_element.
  destruct (py_split _ PG_NAME_DELIMETER) as [names|] eqn:Hs; cbn; [|discriminate].
  assert (Hne : names <> []).
  { destruct (FlowElement.parent_path (FlowElement.common element)); try discriminate.
    cbn in Hs. injection Hs as <-. apply str_split_go_nonempty. }
  destruct names as [|root segs]; [contradiction|]. cbn [tail].
  destruct segs as [|m segs]; [discriminate|].
  destruct (list_snoc_inv (m :: segs)) as (front & n & Heq); [discriminate|].
  rewrite Heq, (descend_level (Flow.TFlow self) (Flow.elements self) front n eq_refl).
  destruct (level_of (Flow.elements self) front) as [els|] eqn:Hl; [|discriminate].
  unfold Flow.elements_get. destruct (els !! n) eqn:Hn; [discriminate|].
  intros _. exists root, front, n, els. rewrite <- Heq. repeat split; assumption.
Qed.

Lemma get_parent_element_none_witness :
  exists root front n els,
    py_split (FlowElement.parent_path (FlowElement.common (sample_port "flow/A/out")))
      PG_NAME_DELIMETER = Ok (root :: front ++ [n])
    /\ level_of (Flow.elements resolved_flow) front = Some els
    /\ els !! n = None.
Proof.
  apply (get_parent_element_none resolved_flow (sample_port "flow/A/out")).
  reflexivity.
Defined.

(** ** Connection *)

(** X4.  Building a connection from the attributes of another gives the same
    connection. *)
Theorem Connection_call_vars (c : Connection.t) :
  Connection.call (PDict (Connection_vars c)) = Ok c.
Proof. destruct c as [n f t r]. reflexivity. Qed.

Lemma Connection_call_Ok_ok (c : pyval) (o : Connection.t) :
  Connection.call c = Ok o -> connection_record_ok c = true.
Proof.
  destruct c as [| | | | |kw]; cbn; try discriminate.
  case_bool_decide; cbn; [|discriminate].
  destruct (kw !! "name") eqn:Hn; [|discriminate]. intros _.
  apply bool_decide_eq_true_2. eauto.
Qed.

Lemma Connection_call_raises (c : pyval) (e : exn) :
  Connection.call c = Raise e -> e = TypeError.
Proof.
  destruct c as [| | | | |kw]; cbn; try (now intros [= <-]).
  case_bool_decide; [|now intros [= <-]].
  destruct (kw !! "name"); [discriminate|now intros [= <-]].
Qed.

(** X5.  [Connection( **c )] either returns or raises [TypeError].  It returns
    exactly for a mapping that has a [name] and no key besides [name],
    [from_port], [to_port] and [relationships]; the attributes are the
    mapping's values, [None] for the keys it lacks. *)
Theorem Connection_call_outcome (c : pyval) :
  match Connection.call c with
  | Ok o =>
      exists kw, c = PDict kw /\ connection_record_ok c = true
                 /\ kw !! "name" = Some (Connection.name o)
                 /\ Connection.from_port o = dict_get kw "from_port"
                 /\ Connection.to_port o = dict_get kw "to_port"
                 /\ Connection.relationships o = dict_get kw "relationships"
  | Raise e => e = TypeError /\ connection_record_ok c = false
  end.
Proof.
  destruct c as [| | | | |kw]; cbn; try (split; reflexivity).
  case_bool_decide as Hd; cbn; [|split; reflexivity].
  destruct (kw !! "name") as [n|] eqn:Hn; cbn.
  - exists kw. repeat split; assumption.
  - split; reflexivity.
Qed.

Lemma connections_ok_of_Forall2 (cs : list pyval) (objs : list Connection.t) :
  Forall2 (fun c o => Connection.call c = Ok o) cs objs ->
  forallb connection_record_ok cs = true.
Proof.
  induction 1 as [|c o cs objs Hc _ IH]; [reflexivity|]. cbn.
  now rewrite IH, (Connection_call_Ok_ok c o Hc).
Qed.

Lemma make_connections_Ok_ok (v : pyval) (conns : option (list Connection.t)) :
  make_connections v = Ok conns -> connections_ok v = true.
Proof.
  destruct conns as [objs|].
  - intros (cs & -> & Hne & Hall)%make_connections_Some_inv.
    unfold connections_ok. rewrite (connections_ok_of_Forall2 _ _ Hall).
    apply orb_true_r.
  - unfold make_connections, connections_ok. destruct (truthy v); [|reflexivity].
    destruct v; try discriminate. destruct (mapM _ _); discriminate.
Qed.

Lemma make_connections_raises (v : pyval) (e : exn) :
  make_connections v = Raise e -> e = TypeError.
Proof.
  unfold make_connections. destruct (truthy v); [|discriminate].
  destruct v as [| | | |cs|]; try (now intros [= <-]).
  revert e. induction cs as [|c cs IH]; intros e; cbn; [discriminate|].
  destruct (Connection.call c) as [o|e'] eqn:Hc; cbn.
  - destruct (mapM Connection.call cs) as [os|e''] eqn:Hcs; cbn; [discriminate|].
    intros [= <-]. now apply IH.
  - intros [= <-]. now apply Connection_call_raises in Hc.
Qed.

(** X6.  The [connections] expression of the four constructors has three
    outcomes.  It gives [None] exactly for a falsy argument; it gives the
    list of connections, one per record and in order, exactly for a
    non-empty list of connection records; anything else (a truthy value
    that is no list, or a list with one element that is no connection
    record) raises [TypeError], and no list is kept. *)
Theorem make_connections_outcome (v : pyval) :
  match make_connections v with
  | Ok None => truthy v = false
  | Ok (Some objs) =>
      exists cs, v = PList cs /\ cs <> []
                 /\ Forall2 (fun c o => Connection.call c = Ok o) cs objs
  | Raise e => e = TypeError /\ connections_ok v = false
  end.
Proof.
  destruct (make_connections v) as [[objs|]|e] eqn:Hm.
  - now apply make_connections_Some_inv.
  - unfold make_connections in Hm. destruct (truthy v); [|reflexivity].
    destruct v; try discriminate. destruct (mapM _ _); discriminate.
  - split; [now apply make_connections_raises in Hm|].
    destruct (connections_ok v) eqn:Hok; [|reflexivity].
    destruct (make_connections_ok v Hok) as [conns Hc]. congruence.
Qed.

(** ** The identity properties: frame and stability *)

Lemma set_id_keeps_parent_id (e e' : FlowElement.t) (v : pyval) :
  FlowElement.set_id e v = Ok e' -> FlowElement.parent_id e' = FlowElement.parent_id e.
Proof.
  unfold FlowElement.set_id. destruct (truthy _); [discriminate|].
  intros [= <-]. now destruct e.
Qed.

Lemma set_parent_id_keeps_id (e e' : FlowElement.t) (v : pyval) :
  FlowElement.set_parent_id e v = Ok e' -> FlowElement.id e' = FlowElement.id e.
Proof.
  unfold FlowElement.set_parent_id. destruct (truthy _); [discriminate|].
  intros [= <-]. now destruct e.
Qed.



(** X8.  The two identities are independent.  Assigning [id] then
    [parent_id] goes through, both assignments, exactly when assigning
    [parent_id] then [id] does, and the element is then the same. *)
Theorem set_id_set_parent_id_commute (e e' : FlowElement.t) (v w : pyval) :
  (exists e1, FlowElement.set_id e v = Ok e1 /\ FlowElement.set_parent_id e1 w = Ok e')
  <-> (exists e1, FlowElement.set_parent_id e w = Ok e1 /\ FlowElement.set_id e1 v = Ok e').
Proof.
  unfold FlowElement.set_id, FlowElement.set_parent_id.
  destruct e as [[i p n pp ty] ? ? ? ? ?|[i p n pp ty] ? ?|[i p n pp ty] ?|[i p n pp ty] ?];
    cbn -[truthy]; destruct (truthy i) eqn:Hi, (truthy p) eqn:Hp;
    split; intros (e1 & H1 & H2).
  all: try discriminate.
  all: injection H1 as <-; cbn -[truthy] in H2; rewrite ?Hi, ?Hp in H2.
  all: try discriminate.
  all: injection H2 as <-; eexists; (split; [reflexivity|]).
  all: cbn -[truthy]; rewrite ?Hi, ?Hp; reflexivity.
Qed.

(** X9.  Once an identity holds a truthy value, no run of assignments changes
    it, however many go through on the other attribute. *)
Theorem assigns_keeps_identity (e e' : FlowElement.t) :
  assigns e e' ->
  (truthy (FlowElement.id e) = true -> FlowElement.id e' = FlowElement.id e)
  /\ (truthy (FlowElement.parent_id e) = true ->
      FlowElement.parent_id e' = FlowElement.parent_id e).
Proof.
  induction 1 as [e|e v e1 e2 Hs _ [IHi IHp]|e v e1 e2 Hs _ [IHi IHp]].
  - split; reflexivity.
  - split; intros Ht.
    + unfold FlowElement.set_id, FlowElement.id in *. now rewrite Ht in Hs.
    + pose proof (set_id_keeps_parent_id e e1 v Hs) as Hp.
      rewrite <- Hp. apply IHp. now rewrite Hp.
  - split; intros Ht.
    + pose proof (set_parent_id_keeps_id e e1 v Hs) as Hi.
      rewrite <- Hi. apply IHi. now rewrite Hi.
    + unfold FlowElement.set_parent_id, FlowElement.parent_id in *. now rewrite Ht in Hs.
Qed.

Lemma assigns_keeps_identity_witness :
  exists e1 e2,
    FlowElement.set_id (sample_port "flow") (PStr "7c84501d") = Ok e1
    /\ FlowElement.set_parent_id e1 (PStr "root") = Ok e2
    /\ FlowElement.id e2 = FlowElement.id e1.
Proof.
  exists (FlowElement.InputPort
            (FlowElement.mkCommon (PStr "7c84501d") PNone (PStr "in") (PStr "flow")
               (PStr "input_port")) None),
         (FlowElement.InputPort
            (FlowElement.mkCommon (PStr "7c84501d") (PStr "root") (PStr "in") (PStr "flow")
               (PStr "input_port")) None).
  split; [reflexivity|]. split; [reflexivity|].
  apply assigns_keeps_identity; [|reflexivity].
  eapply (assigns_parent_id _ (PStr "root")); [reflexivity|apply assigns_none].
Defined.

(** ** The config of a processor, controller or reporting task *)

Lemma config_from_Ok_inv (dto_init : gmap string pyval -> option exn) (cfg st : pyval)
    (g : ElementConfig) :
  config_from dto_init cfg = (st, Ok g) ->
  exists c pkg,
    cfg = PDict c /\ c !! "package_id" = Some pkg
    /\ c !! "self" = None
    /\ st = PDict (dto_kwargs g)
    /\ g = {| package_id := pkg;
              dto_kwargs := delete "package_id"
                              (if bool_decide (is_Some (c !! "properties")) then c
                               else <["properties" := PDict ∅]> c) |}
    /\ dto_init (dto_kwargs g) = None.
Proof.
  unfold config_from. destruct cfg as [| | |s|l|c]; cbn [py_in]; try discriminate.
  set (c1 := if bool_decide (is_Some (c !! "properties")) then c
             else <["properties" := PDict ∅]> c).
  assert (H1 : forall k, k <> "properties" -> c1 !! k = c !! k).
  { intros k Hk. subst c1. case_bool_decide; [reflexivity|]. now rewrite lookup_insert_ne. }
  destruct (c1 !! "package_id") as [pkg|] eqn:Hp; [|discriminate].
  unfold ElementConfig_init. case_bool_decide as Hself; [discriminate|].
  destruct (dto_init (delete "package_id" c1)) eqn:Hd; [discriminate|].
  intros [= <- <-]. exists c, pkg. rewrite <- (H1 "package_id") by done.
  repeat split; try assumption.
  rewrite <- (H1 "self") by done.
  rewrite lookup_delete_ne in Hself by done.
  destruct (c1 !! "self") eqn:E; [|reflexivity]. destruct Hself. eauto.
Qed.

Lemma config_from_Ok_ok (dto_init : gmap string pyval -> option exn) (cfg st : pyval)
    (g : ElementConfig) :
  config_from dto_init cfg = (st, Ok g) -> config_ok dto_init cfg = true.
Proof.
  intros H. apply config_from_Ok_inv in H as (c & pkg & -> & Hp & Hs & _ & -> & Hd).
  cbn [config_ok dto_kwargs] in *. rewrite Hd.
  rewrite (bool_decide_eq_true_2 (is_Some (c !! "package_id"))) by eauto.
  rewrite (bool_decide_eq_false_2 (is_Some (c !! "self"))); [reflexivity|].
  rewrite Hs. now intros [x Hx].
Qed.

(** X10.  The config is built exactly from a mapping that has a [package_id], has
    no [self] key, and whose other keys the DTO constructor takes.  The
    [package_id] of the result is the mapping's; the keywords handed to the
    DTO are the mapping's other entries, with an empty [properties] mapping
    added when the mapping had none; and the caller's mapping is left
    holding those keywords, that is, without its [package_id]. *)
Theorem config_from_outcome (dto_init : gmap string pyval -> option exn) (cfg : pyval) :
  ((exists st g, config_from dto_init cfg = (st, Ok g)) <-> config_ok dto_init cfg = true)
  /\ (forall st g, config_from dto_init cfg = (st, Ok g) ->
      exists c,
        cfg = PDict c
        /\ c !! "package_id" = Some (package_id g)
        /\ st = PDict (dto_kwargs g)
        /\ dto_kwargs g !! "package_id" = None
        /\ dto_kwargs g !! "properties" = Some (default (PDict ∅) (c !! "properties"))
        /\ forall k, k <> "package_id" -> k <> "properties" -> dto_kwargs g !! k = c !! k).
Proof.
  split.
  - split; [|apply config_ok_from].
    intros (st & g & H). now apply config_from_Ok_ok in H.
  - intros st g H.
    apply config_from_Ok_inv in H as (c & pkg & -> & Hp & _ & -> & -> & _).
    exists c. cbn [package_id dto_kwargs]. repeat split.
    + exact Hp.
    + apply lookup_delete_eq.
    + rewrite lookup_delete_ne by done. case_bool_decide as Hpr.
      * destruct Hpr as [x Hx]. now rewrite Hx.
      * rewrite lookup_insert_eq. destruct (c !! "properties") eqn:E; [|reflexivity].
        destruct Hpr. eauto.
    + intros k Hk1 Hk2. rewrite lookup_delete_ne by done.
      case_bool_decide; [reflexivity|]. now rewrite lookup_insert_ne.
Qed.

Lemma config_from_outcome_witness :
  exists st g, config_from (fun _ => None) (PDict sample_config_record) = (st, Ok g).
Proof.
  apply (proj1 (config_from_outcome (fun _ => None) (PDict sample_config_record))).
  reflexivity.
Defined.

Lemma config_from_consumed (dto_init dto_init' : gmap string pyval -> option exn)
    (cfg st : pyval) (g : ElementConfig) :
  config_from dto_init cfg = (st, Ok g) ->
  config_from dto_init' st = (st, Raise KeyError).
Proof.
  intros H. apply config_from_Ok_inv in H as (c & pkg & -> & Hp & _ & -> & -> & _).
  cbn [dto_kwargs]. unfold config_from. cbn [py_in].
  set (c1 := if bool_decide (is_Some (c !! "properties")) then c
             else <["properties" := PDict ∅]> c).
  assert (Hpr : is_Some (delete "package_id" c1 !! "properties")).
  { rewrite lookup_delete_ne by done. subst c1. case_bool_decide as E; [exact E|].
    rewrite lookup_insert_eq. eauto. }
  rewrite (bool_decide_eq_true_2 _ Hpr). now rewrite lookup_delete_eq.
Qed.

(** X11.  A config mapping serves once.  After a processor, a controller or a
    reporting task has been built from it, the mapping has lost its
    [package_id]: building any of the three from the same mapping again
    raises [KeyError] and leaves the mapping as it is. *)
Theorem config_serves_once (ext ext' : External) (cfg st : pyval) :
  (forall n p ty conns e,
      FlowElement.Processor_init ext n p ty cfg conns = (st, Ok e)
      \/ (exists c, Controller.init ext n cfg = (st, Ok c))
      \/ (exists r, ReportingTask.init ext n cfg = (st, Ok r)) ->
      forall n' p' ty' conns',
        FlowElement.Processor_init ext' n' p' ty' st conns' = (st, Raise KeyError)
        /\ Controller.init ext' n' st = (st, Raise KeyError)
        /\ ReportingTask.init ext' n' st = (st, Raise KeyError)).
Proof.
  intros n p ty conns e H.
  assert (Hc : exists dto g, config_from dto cfg = (st, Ok g)).
  { destruct H as [H|[[c H]|[r H]]].
    - unfold FlowElement.Processor_init in H.
      destruct (config_from _ cfg) as [st' [g|]] eqn:E; cbn in H; [|discriminate].
      injection H as <- _. eauto.
    - unfold Controller.init in H.
      destruct (config_from _ cfg) as [st' [g|]] eqn:E; cbn in H; [|discriminate].
      injection H as <- _. eauto.
    - unfold ReportingTask.init in H.
      destruct (config_from _ cfg) as [st' [g|]] eqn:E; cbn in H; [|discriminate].
      injection H as <- _. eauto. }
  destruct Hc as (dto & g & Hc). intros n' p' ty' conns'.
  unfold FlowElement.Processor_init, Controller.init, ReportingTask.init.
  rewrite !(config_from_consumed dto _ cfg st g Hc). repeat split.
Qed.

Lemma config_serves_once_witness :
  exists st c,
    Controller.init permissive (PStr "svc1") (PDict sample_config_record) = (st, Ok c)
    /\ ReportingTask.init permissive (PStr "task") st = (st, Raise KeyError).
Proof.
  do 2 eexists. split; [reflexivity|].
  refine (proj2 (proj2 (config_serves_once permissive permissive
                          (PDict sample_config_record) _ (PStr "svc1") PNone PNone PNone
                          (sample_port "flow") (or_intror (or_introl (ex_intro _ _ eq_refl)))
                          (PStr "task") PNone PNone PNone))).
Defined.

(** X12.  A mapping without [package_id] fails all three constructors with
    [KeyError], and not without trace: the caller's mapping has been given
    an empty [properties] entry if it had none; its other entries are as
    they were. *)
Theorem config_without_package_id (ext : External) (c : gmap string pyval) :
  c !! "package_id" = None ->
  exists c',
    (forall n p ty conns,
        FlowElement.Processor_init ext n p ty (PDict c) conns = (PDict c', Raise KeyError))
    /\ (forall n, Controller.init ext n (PDict c) = (PDict c', Raise KeyError))
    /\ (forall n, ReportingTask.init ext n (PDict c) = (PDict c', Raise KeyError))
    /\ c' !! "properties" = Some (default (PDict ∅) (c !! "properties"))
    /\ forall k, k <> "properties" -> c' !! k = c !! k.
Proof.
  intros Hp.
  set (c1 := if bool_decide (is_Some (c !! "properties")) then c
             else <["properties" := PDict ∅]> c).
  assert (H1 : forall k, k <> "properties" -> c1 !! k = c !! k).
  { intros k Hk. subst c1. case_bool_decide; [reflexivity|]. now rewrite lookup_insert_ne. }
  assert (Hc : forall dto, config_from dto (PDict c) = (PDict c1, Raise KeyError)).
  { intros dto. unfold config_from. cbn [py_in]. fold c1.
    now rewrite (H1 "package_id"), Hp by done. }
  exists c1. unfold FlowElement.Processor_init, Controller.init, ReportingTask.init.
  repeat split; intros; rewrite ?Hc; try reflexivity; try (now apply H1).
  subst c1. case_bool_decide as E.
  - destruct E as [x Hx]. now rewrite Hx.
  - rewrite lookup_insert_eq. destruct (c !! "properties") eqn:E'; [|reflexivity].
    destruct E. eauto.
Qed.

Lemma config_without_package_id_witness :
  exists c',
    Controller.init permissive (PStr "svc1") (PDict ∅) = (PDict c', Raise KeyError)
    /\ c' !! "properties" = Some (PDict ∅).
Proof.
  assert (H : (∅ : gmap string pyval) !! "package_id" = None) by reflexivity.
  destruct (config_without_package_id permissive ∅ H) as (c' & _ & Hc & _ & Hp & _).
  exists c'. split; [apply Hc|exact Hp].
Defined.

(** ** FlowElement.from_dict: further properties *)

Lemma from_dict_state_no_type (ext : External) (d : gmap string pyval) :
  passes_validation (PDict d) = true ->
  exists d', fst (FlowElement.from_dict ext (PDict d)) = PDict d' /\ d' !! "type" = None.
Proof.
  intros Hv. rewrite (from_dict_accepted ext d Hv). cbv zeta. fold (renamed_vars d).
  destruct (lookup_renamed_type d) as [_ Hn].
  destruct (variant_of_tag (dict_get d "type")) as [[| | |]|]; cbn [fst];
    try (now exists (renamed d)).
  - exists (renamed_vars d). split; [reflexivity|apply lookup_renamed_vars_type].
  - destruct (FlowElement.Processor_call ext (renamed d)) as [d2 r] eqn:Hcall. cbn [fst].
    exists d2. split; [reflexivity|].
    pose proof (Processor_call_state ext (renamed d) "type") as H.
    rewrite Hcall in H. cbn [fst] in H. now rewrite H.
Qed.

(** X13.  A record is built once.  When a call has got past the opening checks,
    whether it returned an element or raised later, a second call on the
    caller's record raises [FlowLibException]: the record has lost its
    [type]. *)
Theorem from_dict_not_reusable (ext ext' : External) (elem_dict : pyval) :
  passes_validation elem_dict = true ->
  snd (FlowElement.from_dict ext' (fst (FlowElement.from_dict ext elem_dict)))
  = Raise FlowLibException.
Proof.
  intros Hv. destruct elem_dict as [| | | | |d]; try discriminate.
  destruct (from_dict_state_no_type ext d Hv) as (d' & -> & Hn).
  cbn. unfold dict_get. now rewrite Hn.
Qed.

Lemma from_dict_not_reusable_witness :
  (exists e, snd (FlowElement.from_dict permissive (PDict port_record)) = Ok e)
  /\ snd (FlowElement.from_dict permissive
            (fst (FlowElement.from_dict permissive (PDict port_record))))
     = Raise FlowLibException.
Proof.
  split; [eexists; reflexivity|].
  apply (from_dict_not_reusable permissive permissive (PDict port_record)).
  reflexivity.
Defined.

(** X14.  A truthy name that has no length, a non-zero number or [True], is not
    refused as a bad name: [len(name)] raises [TypeError], and the record
    is left as it was. *)
Theorem from_dict_unsized_name (ext : External) (d : gmap string pyval) :
  truthy (dict_get d "type") = true ->
  (exists z, z <> 0%Z /\ dict_get d "name" = PInt z) \/ dict_get d "name" = PBool true ->
  FlowElement.from_dict ext (PDict d) = (PDict d, Raise TypeError).
Proof.
  intros Ht Hn. unfold FlowElement.from_dict. rewrite Ht. cbn [negb].
  destruct Hn as [(z & Hz & ->)| ->]; unfold FlowElement.name_is_empty; cbn.
  - apply Z.eqb_neq in Hz. now rewrite Hz.
  - reflexivity.
Qed.

Lemma from_dict_unsized_name_witness :
  FlowElement.from_dict permissive (PDict numbered_record)
  = (PDict numbered_record, Raise TypeError).
Proof.
  apply (from_dict_unsized_name permissive numbered_record).
  - reflexivity.
  - left. exists 5%Z. split; [discriminate|reflexivity].
Defined.

Lemma from_dict_structural_errors_witness :
  snd (FlowElement.from_dict permissive (PList [])) = Raise FlowLibException
  /\ snd (FlowElement.from_dict permissive (PDict (delete "name" port_record)))
     = Raise FlowLibException
  /\ snd (FlowElement.from_dict permissive (PDict (delete "type" port_record)))
     = Raise FlowLibException
  /\ snd (FlowElement.from_dict permissive
            (PDict (<["type" := PStr "widget"]> port_record)))
     = Raise FlowLibException.
Proof.
  split; [|split; [|split]].
  - apply (proj1 (from_dict_structural_errors permissive (PList []))). discriminate.
  - apply (proj1 (proj2 (proj2 (from_dict_structural_errors permissive _) _ eq_refl))).
    reflexivity.
  - apply (proj1 (proj2 (from_dict_structural_errors permissive _) _ eq_refl)).
    reflexivity.
  - apply (proj2 (proj2 (proj2 (from_dict_structural_errors permissive _) _ eq_refl)));
      reflexivity.
Defined.

Lemma Processor_call_Ok_config (ext : External) (kw : gmap string pyval) (e : FlowElement.t) :
  snd (FlowElement.Processor_call ext kw) = Ok e ->
  exists c st cfg conns,
    kw !! "config" = Some c
    /\ config_from (ProcessorConfigDTO_init ext) c = (st, Ok cfg)
    /\ FlowElement.connections e = conns
    /\ exists cm, e = FlowElement.Processor cm cfg conns.
Proof.
  unfold FlowElement.Processor_call, FlowElement.Processor_init.
  case_bool_decide as Hd; [|discriminate].
  destruct (kw !! "name") as [n|], (kw !! "parent_path") as [p|],
    (kw !! "_type") as [ty|], (kw !! "config") as [c|]; try discriminate.
  destruct (config_from _ c) as [st [cfg|]] eqn:Hc; cbn; [|discriminate].
  destruct (make_connections (dict_get kw "connections")) as [conns|];
    cbn; [|discriminate].
  intros [= <-]. exists c, st, cfg, conns. repeat split; eauto.
Qed.




(** X17.  The factory does not look at [parent_path]: a record whose [parent_path]
    is no string is built all the same, and the parent lookup on the element
    raises [AttributeError] in every flow. *)
Theorem from_dict_parent_path_unchecked (ext : External) (d : gmap string pyval)
    (e : FlowElement.t) (self : Flow.t) :
  snd (FlowElement.from_dict ext (PDict d)) = Ok e ->
  (forall s, dict_get d "parent_path" <> PStr s) ->
  Flow.get_parent_element self e = Raise AttributeError.
Proof.
  intros H Hp. destruct (from_dict_Ok ext d e H) as (_ & _ & _ & _ & Hpp & _).
  rewrite (dict_get_Some _ _ _ Hpp) in Hp. unfold Flow.get_parent_element.
  destruct (FlowElement.parent_path (FlowElement.common e)); try reflexivity.
  now destruct (Hp s).
Qed.

Lemma from_dict_parent_path_unchecked_witness :
  exists e,
    snd (FlowElement.from_dict permissive (PDict orphan_port_record)) = Ok e
    /\ Flow.get_parent_element sample_flow e = Raise AttributeError.
Proof.
  eexists. split; [reflexivity|].
  apply (from_dict_parent_path_unchecked permissive orphan_port_record _ sample_flow).
  - reflexivity.
  - intros s. discriminate.
Defined.

(** *** Exactly the valid records are built *)

Lemma passes_validation_name (d : gmap string pyval) :
  passes_validation (PDict d) = true ->
  match dict_get d "name" with
  | PStr s => String.eqb s "" = false /\ str_in PG_NAME_DELIMETER s = false
  | PList _ | PDict _ => True
  | _ => False
  end.
Proof.
  cbn [passes_validation]. intros [_ H]%andb_true_iff. revert H.
  unfold FlowElement.name_is_empty.
  destruct (dict_get d "name") as [|[|]|z|s|l|m]; cbn; try discriminate; try tauto.
  - destruct (Z.eqb z 0); cbn; discriminate.
  - destruct (String.eqb s ""); cbn; [discriminate|].
    destruct (String.length s <=? 0)%nat; [discriminate|].
    destruct (str_in PG_NAME_DELIMETER s); [discriminate|]. now split.
Qed.

Lemma dom_of_renamed (d : gmap string pyval) (fields params : list string) :
  d !! "_type" = None ->
  dom (renamed d) ⊆ (list_to_set params : gset string) ->
  "type" ∈ fields ->
  (forall k, k ∈ params -> k <> "_type" -> k ∈ fields) ->
  dom d ⊆ (list_to_set fields : gset string).
Proof.
  intros Hu Hd Ht Hf k [x Hx]%elem_of_dom. apply elem_of_list_to_set.
  destruct (decide (k = "type")) as [->|Hk]; [exact Ht|].
  assert (Hk2 : k <> "_type") by (intros ->; congruence).
  apply Hf; [|exact Hk2].
  apply (elem_of_list_to_set (C := gset string)), Hd, elem_of_dom.
  rewrite lookup_renamed_other by done. eauto.
Qed.

Ltac not_in_list H :=
  repeat (apply elem_of_cons in H as [H|H]; [discriminate H|]);
  now apply elem_of_nil in H.

Lemma dom_of_renamed_vars (d : gmap string pyval) :
  d !! "_type" = None -> d !! "_vars" = None ->
  dom (renamed_vars d) ⊆ FlowElement.ProcessGroup_params ->
  dom d ⊆ fields_of FlowElement.VProcessGroup
  /\ match d !! "vars" with Some x => truthy x | None => true end = true.
Proof.
  intros Hu Hv Hd. split.
  - intros k [x Hx]%elem_of_dom. apply elem_of_list_to_set.
    destruct (decide (k = "type")) as [->|Hk1]; [in_list|].
    destruct (decide (k = "vars")) as [->|Hk2]; [in_list|].
    assert (Hk3 : k <> "_type") by (intros ->; congruence).
    assert (Hk4 : k <> "_vars") by (intros ->; congruence).
    assert (Hin : k ∈ dom (renamed_vars d)).
    { apply elem_of_dom. rewrite lookup_renamed_vars_other by done. eauto. }
    apply Hd, elem_of_list_to_set in Hin. each_field Hin.
  - destruct (d !! "vars") as [x|] eqn:Hx; [|reflexivity].
    destruct (truthy x) eqn:Ht; [reflexivity|]. exfalso.
    assert (Hin : "vars" ∈ dom (renamed_vars d)).
    { apply elem_of_dom. unfold renamed_vars. cbv zeta.
      rewrite (dict_get_renamed_other d "vars") by done.
      rewrite (dict_get_Some _ _ _ Hx), Ht.
      rewrite lookup_renamed_other by done. eauto. }
    apply Hd, elem_of_list_to_set in Hin. not_in_list Hin.
Qed.

(** X18.  For a record whose name is no list and no mapping and that has no
    [_type] and no [_vars] key of its own, the factory returns an element
    exactly when the record is valid: recognized discriminator, non-empty
    string name without the delimiter, the fields the variant requires and
    no others, truthy [vars] when given, a config that can be built, and
    connections that can be built.  Every other such record raises. *)
Theorem from_dict_returns_iff_valid (ext : External) (d : gmap string pyval) :
  (forall l, dict_get d "name" <> PList l) ->
  (forall m, dict_get d "name" <> PDict m) ->
  d !! "_type" = None -> d !! "_vars" = None ->
  ((exists e, snd (FlowElement.from_dict ext (PDict d)) = Ok e)
   <-> valid_record ext d = true).
Proof.
  intros Hl Hm Hu Hvars. split; [|apply from_dict_valid_returns].
  intros [e H].
  destruct (from_dict_Ok ext d e H) as (Hv & Htag & _ & _ & _).
  pose proof (passes_validation_name d Hv) as Hname.
  rewrite (from_dict_accepted ext d Hv) in H. cbv zeta in H. fold (renamed_vars d) in H.
  unfold valid_record, has_required_fields. rewrite Htag in *.
  destruct (dict_get d "name") as [| | |s|l|m] eqn:En; try contradiction;
    [|now destruct (Hl l)|now destruct (Hm m)].
  destruct Hname as [-> ->]. cbn [negb andb].
  destruct (FlowElement.variant_of e); cbn [snd required_of forallb] in *.
  - apply ProcessGroup_call_Ok in H as (n & p & ty & r & conns & _ & Hp & _ & Hr & Hd & Hc & _).
    rewrite lookup_renamed_vars_other in Hp, Hr by done.
    unfold dict_get in Hc at 1. rewrite lookup_renamed_vars_other in Hc by done.
    fold (dict_get d "connections") in Hc.
    destruct (dom_of_renamed_vars d Hu Hvars Hd) as [Hdom Hvs].
    rewrite Hp, Hr, Hvs, (make_connections_Ok_ok _ _ Hc).
    rewrite !bool_decide_eq_true_2 by eauto. reflexivity.
  - destruct (FlowElement.Processor_call ext (renamed d)) as [d2 r] eqn:Hcall.
    cbn [snd] in H. subst r.
    assert (Hs : snd (FlowElement.Processor_call ext (renamed d)) = Ok e)
      by now rewrite Hcall.
    pose proof Hs as Hs'.
    apply Processor_call_Ok in Hs as (n & p & ty & cfg & conns & _ & Hp & _ & Hd & Hc & _).
    apply Processor_call_Ok_config in Hs' as (c & st & g & _ & Hcfg & Hfrom & _).
    rewrite lookup_renamed_other in Hp, Hcfg by done.
    rewrite dict_get_renamed_other in Hc by done.
    assert (Hdom : dom d ⊆ fields_of FlowElement.VProcessor).
    { apply (dom_of_renamed d _ _ Hu Hd); [in_list|]. intros k Hk Hne. each_field Hk. }
    rewrite Hp, Hcfg, (dict_get_Some _ _ _ Hcfg), (make_connections_Ok_ok _ _ Hc),
      (config_from_Ok_ok _ _ _ _ Hfrom).
    rewrite !bool_decide_eq_true_2 by eauto. reflexivity.
  - apply InputPort_call_Ok in H as (n & p & ty & conns & _ & Hp & _ & Hd & Hc & _).
    rewrite lookup_renamed_other in Hp by done.
    rewrite dict_get_renamed_other in Hc by done.
    assert (Hdom : dom d ⊆ fields_of FlowElement.VInputPort).
    { apply (dom_of_renamed d _ _ Hu Hd); [in_list|]. intros k Hk Hne. each_field Hk. }
    rewrite Hp, (make_connections_Ok_ok _ _ Hc).
    rewrite !bool_decide_eq_true_2 by eauto. reflexivity.
  - apply OutputPort_call_Ok in H as (n & p & ty & conns & _ & Hp & _ & Hd & Hc & _).
    rewrite lookup_renamed_other in Hp by done.
    rewrite dict_get_renamed_other in Hc by done.
    assert (Hdom : dom d ⊆ fields_of FlowElement.VOutputPort).
    { apply (dom_of_renamed d _ _ Hu Hd); [in_list|]. intros k Hk Hne. each_field Hk. }
    rewrite Hp, (make_connections_Ok_ok _ _ Hc).
    rewrite !bool_decide_eq_true_2 by eauto. reflexivity.
Qed.

Lemma from_dict_returns_iff_valid_witness :
  (exists e, snd (FlowElement.from_dict permissive (PDict group_record)) = Ok e)
  <-> valid_record permissive group_record = true.
Proof.
  apply (from_dict_returns_iff_valid permissive group_record).
  - intros l. discriminate.
  - intros m. discriminate.
  - reflexivity.
  - reflexivity.
Defined.

(** *** The config of a processor's record after the call *)

(** X19.  When the factory returns a processor, the mapping the caller's record
    holds under [config] has been used up: it is now the keyword mapping of
    the config that was built, without [package_id] and with a [properties]
    entry. *)
Theorem from_dict_processor_config_state (ext : External) (d : gmap string pyval)
    (cm : FlowElement.Common) (cfg : ElementConfig) (cn : option (list Connection.t)) :
  snd (FlowElement.from_dict ext (PDict d)) = Ok (FlowElement.Processor cm cfg cn) ->
  exists d',
    fst (FlowElement.from_dict ext (PDict d)) = PDict d'
    /\ d' !! "config" = Some (PDict (dto_kwargs cfg))
    /\ dto_kwargs cfg !! "package_id" = None
    /\ is_Some (dto_kwargs cfg !! "properties").
Proof.
  intros H. destruct (from_dict_Ok ext d _ H) as (Hv & Htag & _).
  rewrite (from_dict_accepted ext d Hv) in H |- *. cbv zeta in H |- *.
  rewrite Htag in H |- *. cbn [FlowElement.variant_of] in H |- *.
  unfold FlowElement.Processor_call, FlowElement.Processor_init in H |- *.
  case_bool_decide as Hd; [|discriminate].
  destruct (renamed d !! "name") as [n|], (renamed d !! "parent_path") as [p|],
    (renamed d !! "_type") as [ty|], (renamed d !! "config") as [c|]; try discriminate.
  destruct (config_from _ c) as [st [g|]] eqn:Hc; cbn in H |- *; [|discriminate].
  destruct (make_connections _) as [conns|]; cbn in H; [|discriminate].
  injection H as _ <- _.
  apply config_from_Ok_inv in Hc as (c0 & pkg & -> & Hp & _ & -> & -> & _).
  eexists. split; [reflexivity|]. cbn [dto_kwargs]. rewrite lookup_insert_eq.
  split; [reflexivity|]. split; [apply lookup_delete_eq|].
  rewrite lookup_delete_ne by done. case_bool_decide as E; [exact E|].
  rewrite lookup_insert_eq. eauto.
Qed.

Lemma from_dict_processor_config_state_witness :
  exists d',
    fst (FlowElement.from_dict permissive (PDict processor_record)) = PDict d'
    /\ d' !! "config" = Some (PDict {[ "properties" := PDict ∅ ]}).
Proof.
  destruct (from_dict_processor_config_state permissive processor_record
              (FlowElement.fresh (PStr "fetch") (PStr "flow") (PStr "processor"))
              sample_config (Some sample_connections) eq_refl)
    as (d' & Hst & Hcfg & _).
  exists d'. split; [exact Hst|exact Hcfg].
Defined.
